(** * giftmanager: app/logging_setup.py

    A shallow embedding of the logging configuration module
    ([addLoggingLevel], [logging_setup], [get_log_level]) together with
    the parts of the Python runtime it calls ([int], [str.lower],
    [hasattr]/[setattr] on the [logging] module and on the logger class,
    [logging.addLevelName], handlers, [coloredlogs.install]).

    Conventions.
    - A Python [str] is a Rocq [string]; each 8-bit character is read as
      the code point of the same number (U+0000 .. U+00FF).  A Python
      [bytes] value is a [string] too, read as raw bytes.
    - A Python [int] is a [Z] (unbounded).
    - A Python [float] is a [spec_float] of the standard library.
    - Exceptions are values of [exn]; a call either [Returns] or [Raises]. *)

From Stdlib Require Import ZArith NArith Bool List Lia Ascii String.
From Stdlib Require Import Floats.SpecFloat DecimalString.
From stdpp Require Import base option strings list gmap.

Local Open Scope string_scope.
Local Open Scope Z_scope.

(** ** Python values and exceptions *)

#[local] Set Warnings "-register-all".

Inductive pyval : Type :=
| VInt (n : Z)
| VBool (b : bool)
| VStr (s : string)
| VBytes (b : string)
| VFloat (f : spec_float)
| VNone
| VList (l : list pyval).

Inductive exn : Type :=
| TypeError
| ValueError
| OverflowError
| UnboundLocalError
| OSError
| AttributeError (msg : string)
| SystemExit (msg : string).

Inductive outcome (A : Type) : Type :=
| Returns (a : A)
| Raises (e : exn).
Arguments Returns {A} a.
Arguments Raises {A} e.

(** ** Characters *)

Module Char.

Definition code (c : ascii) : N := N_of_ascii c.

Definition is_digit (c : ascii) : bool :=
  ((48 <=? code c) && (code c <=? 57))%N.

Definition digit_value (c : ascii) : Z := Z.of_N (code c) - 48.

(** [Py_ISSPACE]: the C locale's white space. *)
Definition Py_ISSPACE (c : ascii) : bool :=
  ((code c =? 32) || ((9 <=? code c) && (code c <=? 13)))%N.

(** [Py_UNICODE_ISSPACE] on U+0000 .. U+00FF. *)
Definition Py_UNICODE_ISSPACE (c : ascii) : bool :=
  (Py_ISSPACE c || ((28 <=? code c) && (code c <=? 31))
   || (code c =? 133) || (code c =? 160))%N.

(** [str.lower] on one code point of U+0000 .. U+00FF: the letters A-Z
    and the capital letters U+00C0 .. U+00DE (U+00D7, the multiplication
    sign, is no letter) move up by 32; all the others stay. *)
Definition lower (c : ascii) : ascii :=
  let n := code c in
  if (((65 <=? n) && (n <=? 90))
      || ((192 <=? n) && (n <=? 222) && negb (n =? 215)))%N
  then ascii_of_N (n + 32) else c.

End Char.

(** [str.lower]. *)
Fixpoint lower (s : string) : string :=
  match s with
  | EmptyString => EmptyString
  | String c r => String (Char.lower c) (lower r)
  end.

(** ** The built-in [int] *)

Section PyInt.

(** [sys.get_int_max_str_digits()]: the interpreter's limit on the number
    of digits of a decimal literal handed to [int]; 0 switches it off. *)
Variable int_max_str_digits : nat.

Fixpoint skip_space (isspace : ascii -> bool) (s : string) : string :=
  match s with
  | String c r => if isspace c then skip_space isspace r else s
  | EmptyString => EmptyString
  end.

(** The digit loop of [PyLong_FromString]: digits and single underscores;
    [prev] is the character before, [acc] the value and [nd] the number
    of digits so far.  [None] for a doubled or a trailing underscore. *)
Fixpoint scan_digits (prev : ascii) (acc : Z) (nd : nat) (s : string)
  : option (Z * nat * string) :=
  match s with
  | String c r =>
      if Char.is_digit c
      then scan_digits c (acc * 10 + Char.digit_value c) (S nd) r
      else if Ascii.eqb c "_"
      then if Ascii.eqb prev "_" then None else scan_digits c acc nd r
      else if Ascii.eqb prev "_" then None else Some (acc, nd, s)
  | EmptyString =>
      if Ascii.eqb prev "_" then None else Some (acc, nd, EmptyString)
  end.

(** The limit is looked at only for more than 640 digits
    ([_PY_LONG_MAX_STR_DIGITS_THRESHOLD]). *)
Definition exceeds_max_str_digits (nd : nat) : bool :=
  Nat.ltb 640 nd
  && negb (Nat.eqb int_max_str_digits 0) && Nat.ltb int_max_str_digits nd.

(** [PyLong_FromString(s, &end, 10)] followed by the check that [end] is
    the end of the buffer; [None] stands for [ValueError]. *)
Definition PyLong_FromString (s : string) : option Z :=
  let s1 := skip_space Char.Py_ISSPACE s in
  let '(negative, s2) :=
    match s1 with
    | String "+" r => (false, r)
    | String "-" r => (true, r)
    | _ => (false, s1)
    end in
  match s2 with
  | String "_" _ => None
  | _ =>
      match scan_digits "000" 0 0 s2 with
      | None => None
      | Some (v, nd, rest) =>
          if Nat.eqb nd 0 then None
          else if exceeds_max_str_digits nd then None
          else match skip_space Char.Py_ISSPACE rest with
               | EmptyString => Some (if negative then - v else v)
               | String _ _ => None
               end
      end
  end.

(** [_PyUnicode_TransformDecimalAndSpaceToASCII]: code points below 127
    are kept, white space from 127 on becomes a blank, and the first
    other code point (none of U+007F .. U+00FF is a decimal digit) becomes
    a question mark that ends the buffer.  (CPython skips the pass for a
    string of ASCII only; there it could change U+007F alone, which the
    parser rejects like the question mark.) *)
Fixpoint TransformDecimalAndSpaceToASCII (s : string) : string :=
  match s with
  | EmptyString => EmptyString
  | String c r =>
      if (Char.code c <? 127)%N
      then String c (TransformDecimalAndSpaceToASCII r)
      else if Char.Py_UNICODE_ISSPACE c
      then String " " (TransformDecimalAndSpaceToASCII r)
      else String "?" EmptyString
  end.

(** [int(s)] for a [str]. *)
Definition int_of_str (s : string) : option Z :=
  PyLong_FromString (TransformDecimalAndSpaceToASCII s).

(** [int(b)] for a [bytes]. *)
Definition int_of_bytes (b : string) : option Z := PyLong_FromString b.

(** [int(x)] for a [float]: truncation toward zero. *)
Definition int_of_float (f : spec_float) : outcome Z :=
  match f with
  | S754_zero _ => Returns 0
  | S754_infinity _ => Raises OverflowError
  | S754_nan => Raises ValueError
  | S754_finite s m e =>
      let a := if 0 <=? e then Z.pos m * 2 ^ e else Z.pos m / 2 ^ (- e) in
      Returns (if s then - a else a)
  end.

Definition of_option {A} (e : exn) (o : option A) : outcome A :=
  match o with Some a => Returns a | None => Raises e end.

(** The built-in [int(x)]. *)
Definition py_int (x : pyval) : outcome Z :=
  match x with
  | VInt n => Returns n
  | VBool b => Returns (Z.b2z b)
  | VStr s => of_option ValueError (int_of_str s)
  | VBytes b => of_option ValueError (int_of_bytes b)
  | VFloat f => int_of_float f
  | VNone => Raises TypeError
  | VList _ => Raises TypeError
  end.

(** ** [get_log_level] *)

Definition level_names : list string :=
  ["spam"; "debug"; "info"; "warning"; "success"; "error"; "critical"].

(** [x in xs] for a list of strings. *)
Definition str_in (x : string) (xs : list string) : bool :=
  existsb (String.eqb x) xs.

Definition invalid_level_string (levelInput : string) : string :=
  "ERROR: '" +:+ levelInput +:+ "' is not a valid log level string.".

Definition invalid_level_type : string :=
  "ERROR: --log-level should be an integer or valid log level string.".

(** The [try: levelInput = int(levelInput)] block: [TypeError] and
    [ValueError] leave [levelInput] as it was, any other exception leaves
    the function. *)
Definition cast_to_int (levelInput : pyval) : outcome pyval :=
  match py_int levelInput with
  | Returns n => Returns (VInt n)
  | Raises TypeError | Raises ValueError => Returns levelInput
  | Raises e => Raises e
  end.

Definition get_log_level (levelInput : pyval) : outcome Z :=
  match cast_to_int levelInput with
  | Raises e => Raises e
  | Returns levelInput =>
      match levelInput with
      | VInt n => Returns n
      | VBool b => Returns (Z.b2z b)
      | VStr s =>
          if str_in (lower s) level_names then
            if String.eqb (lower s) "spam" then Returns 5
            else if String.eqb (lower s) "debug" then Returns 10
            else if String.eqb (lower s) "info" then Returns 20
            else if String.eqb (lower s) "warning" then Returns 30
            else if String.eqb (lower s) "success" then Returns 35
            else if String.eqb (lower s) "error" then Returns 40
            else if String.eqb (lower s) "critical" then Returns 50
            else Raises UnboundLocalError
          else Raises (SystemExit (invalid_level_string s))
      | _ => Raises (SystemExit invalid_level_type)
      end
  end.

End PyInt.

(** ** The process-wide logging state *)

(** What a name of the [logging] module or of the logger class is bound
    to: something that was there before, an integer constant, or one of
    the two closures [addLoggingLevel] builds for a level number. *)
Inductive attr : Type :=
| AObject
| AInt (n : Z)
| ALogForLevel (levelNum : Z)
| ALogToRoot (levelNum : Z).

Record style : Type := { color : option string; bold : bool }.

Inductive Formatter : Type :=
| PlainFormatter (fmt : string)
| ColoredFormatter (fmt : string) (field_styles : list (string * style)).

Definition formatter_fmt (f : Formatter) : string :=
  match f with
  | PlainFormatter fmt => fmt
  | ColoredFormatter fmt _ => fmt
  end.

Inductive std_stream : Type := stdout | stderr.

Inductive handler_class : Type :=
| StreamHandler (stream : std_stream)
| StandardErrorHandler
| FileHandler (filename : string).

Record Handler : Type := {
  h_class : handler_class;
  h_level : Z;
  h_formatter : option Formatter
}.

Record date : Type := { year : N; month : N; day : N }.

Record world : Type := {
  logging_attrs : gmap string attr;       (* names of the logging module *)
  logger_class_attrs : gmap string attr;  (* names of logging.getLoggerClass() *)
  levelToName : gmap Z string;            (* logging._levelToName *)
  nameToLevel : gmap string Z;            (* logging._nameToLevel *)
  root_level : Z;                         (* logging.getLogger().level *)
  root_handlers : list Handler;           (* logging.getLogger().handlers *)
  files : gset string;                    (* files of the working directory *)
  cwd_writable : bool;                    (* can a file be opened for append *)
  clock : date;                           (* datetime.datetime.now() *)
  stderr_colors : bool                    (* does stderr take ANSI colours *)
}.

Definition set_logging_attrs (f : gmap string attr -> gmap string attr) (w : world) : world :=
  {| logging_attrs := f (logging_attrs w); logger_class_attrs := logger_class_attrs w;
     levelToName := levelToName w; nameToLevel := nameToLevel w;
     root_level := root_level w; root_handlers := root_handlers w;
     files := files w; cwd_writable := cwd_writable w; clock := clock w;
     stderr_colors := stderr_colors w |}.

Definition set_logger_class_attrs (f : gmap string attr -> gmap string attr) (w : world) : world :=
  {| logging_attrs := logging_attrs w; logger_class_attrs := f (logger_class_attrs w);
     levelToName := levelToName w; nameToLevel := nameToLevel w;
     root_level := root_level w; root_handlers := root_handlers w;
     files := files w; cwd_writable := cwd_writable w; clock := clock w;
     stderr_colors := stderr_colors w |}.

Definition set_level_tables (f : gmap Z string -> gmap Z string)
    (g : gmap string Z -> gmap string Z) (w : world) : world :=
  {| logging_attrs := logging_attrs w; logger_class_attrs := logger_class_attrs w;
     levelToName := f (levelToName w); nameToLevel := g (nameToLevel w);
     root_level := root_level w; root_handlers := root_handlers w;
     files := files w; cwd_writable := cwd_writable w; clock := clock w;
     stderr_colors := stderr_colors w |}.

Definition set_root_level (l : Z) (w : world) : world :=
  {| logging_attrs := logging_attrs w; logger_class_attrs := logger_class_attrs w;
     levelToName := levelToName w; nameToLevel := nameToLevel w;
     root_level := l; root_handlers := root_handlers w;
     files := files w; cwd_writable := cwd_writable w; clock := clock w;
     stderr_colors := stderr_colors w |}.

Definition set_root_handlers (f : list Handler -> list Handler) (w : world) : world :=
  {| logging_attrs := logging_attrs w; logger_class_attrs := logger_class_attrs w;
     levelToName := levelToName w; nameToLevel := nameToLevel w;
     root_level := root_level w; root_handlers := f (root_handlers w);
     files := files w; cwd_writable := cwd_writable w; clock := clock w;
     stderr_colors := stderr_colors w |}.

Definition set_files (f : gset string -> gset string) (w : world) : world :=
  {| logging_attrs := logging_attrs w; logger_class_attrs := logger_class_attrs w;
     levelToName := levelToName w; nameToLevel := nameToLevel w;
     root_level := root_level w; root_handlers := root_handlers w;
     files := f (files w); cwd_writable := cwd_writable w; clock := clock w;
     stderr_colors := stderr_colors w |}.

(** ** Statements: a state and exception monad *)

Definition M (A : Type) : Type := world -> outcome A * world.

Definition ret {A} (a : A) : M A := fun w => (Returns a, w).

Definition bind {A B} (m : M A) (k : A -> M B) : M B :=
  fun w =>
    match m w with
    | (Returns a, w') => k a w'
    | (Raises e, w') => (Raises e, w')
    end.

Definition raise {A} (e : exn) : M A := fun w => (Raises e, w).
Definition gets {A} (f : world -> A) : M A := fun w => (Returns (f w), w).
Definition modify (f : world -> world) : M unit := fun w => (Returns tt, f w).

#[global] Instance M_ret : MRet M := @ret.
#[global] Instance M_bind : MBind M := fun A B k m => bind m k.

(** ** The [logging] module and [coloredlogs] *)

Module logging.

Definition hasattr (name : string) : M bool :=
  gets (fun w => bool_decide (is_Some (logging_attrs w !! name))).

Definition setattr (name : string) (v : attr) : M unit :=
  modify (set_logging_attrs (insert name v)).

(** [hasattr(logging.getLoggerClass(), name)]: the class's own names and
    the inherited ones. *)
Definition hasattr_LoggerClass (name : string) : M bool :=
  gets (fun w => bool_decide (is_Some (logger_class_attrs w !! name))).

Definition setattr_LoggerClass (name : string) (v : attr) : M unit :=
  modify (set_logger_class_attrs (insert name v)).

(** [logging.addLevelName]: both tables are overwritten, no check. *)
Definition addLevelName (level : Z) (levelName : string) : M unit :=
  modify (set_level_tables (insert level levelName) (insert levelName level)).

(** [logging.FileHandler(filename)]: the file is opened for append at
    once, which creates it; level NOTSET, no formatter yet. *)
Definition new_FileHandler (filename : string) : M Handler :=
  ok ← gets cwd_writable;
  if ok : bool then
    modify (set_files (fun fs => {[ filename ]} ∪ fs));;
    ret {| h_class := FileHandler filename; h_level := 0; h_formatter := None |}
  else raise OSError.

(** [logging.StreamHandler()]: writes to [sys.stderr]. *)
Definition new_StreamHandler : Handler :=
  {| h_class := StreamHandler stderr; h_level := 0; h_formatter := None |}.

Definition setFormatter (f : Formatter) (h : Handler) : Handler :=
  {| h_class := h_class h; h_level := h_level h; h_formatter := Some f |}.

Definition setLevel_handler (l : Z) (h : Handler) : Handler :=
  {| h_class := h_class h; h_level := l; h_formatter := h_formatter h |}.

(** [Logger.addHandler] on the root logger, for a handler object that was
    just built and so is not in the list yet. *)
Definition addHandler (h : Handler) : M unit :=
  modify (set_root_handlers (fun hs => (hs ++ [h])%list)).

(** [Logger.setLevel] on the root logger, for an integer level. *)
Definition setLevel (l : Z) : M unit := modify (set_root_level l).

End logging.

Module coloredlogs.

(** [match_stream_handler]: a stream handler on [sys.stdout] or
    [sys.stderr]; the stream of a file handler is neither. *)
Definition match_stream_handler (h : Handler) : bool :=
  match h_class h with
  | StreamHandler _ | StandardErrorHandler => true
  | FileHandler _ => false
  end.

(** [replace_handler] with [reconfigure=True]: the first matching handler
    of the root logger is taken off. *)
Fixpoint remove_first (P : Handler -> bool) (hs : list Handler) : list Handler :=
  match hs with
  | [] => []
  | h :: r => if P h then r else h :: remove_first P r
  end.

(** [adjust_level]: the logger's level is only ever lowered. *)
Definition adjust_level (level : Z) : M unit :=
  cur ← gets root_level;
  if level <? cur then logging.setLevel level else ret tt.

(** [coloredlogs.install(level=, logger=<root>, fmt=, field_styles=)]. *)
Definition install (level : Z) (fmt : string)
    (field_styles : list (string * style)) : M unit :=
  modify (set_root_handlers (remove_first match_stream_handler));;
  use_colors ← gets stderr_colors;
  let formatter :=
    if use_colors : bool then ColoredFormatter fmt field_styles
    else PlainFormatter fmt in
  let handler :=
    logging.setFormatter formatter
      (logging.setLevel_handler level
         {| h_class := StandardErrorHandler; h_level := 0; h_formatter := None |}) in
  adjust_level level;;
  logging.addHandler handler.

End coloredlogs.

(** [datetime.datetime.now().strftime("%Y%m%d")]. *)
Definition two_digits (n : N) : string :=
  String (ascii_of_N (48 + (n / 10) mod 10)) (String (ascii_of_N (48 + n mod 10)) "").

Definition strftime_Ymd (d : date) : string :=
  NilEmpty.string_of_uint (N.to_uint (year d)) +:+ two_digits (month d) +:+ two_digits (day d).

(** ** [addLoggingLevel] and [logging_setup] *)

Definition log_format : string :=
  "%(asctime)s :: %(levelname)-8s :: %(funcName)-17s - %(message)s".

Definition log_field_styles : list (string * style) :=
  [ ("asctime", {| color := Some "green"; bold := false |});
    ("levelname", {| color := Some "black"; bold := true |});
    ("funcName", {| color := Some "blue"; bold := false |});
    ("thread", {| color := Some "black"; bold := false |}) ].

(** [if not methodName: methodName = levelName.lower()]: [None] and the
    empty string are the false values. *)
Definition default_methodName (levelName : string) (methodName : option string) : string :=
  match methodName with
  | None | Some EmptyString => lower levelName
  | Some m => m
  end.

Definition addLoggingLevel (levelName : string) (levelNum : Z)
    (methodName : option string) : M unit :=
  let methodName := default_methodName levelName methodName in
  b1 ← logging.hasattr levelName;
  if b1 : bool then
    raise (AttributeError (levelName +:+ " already defined in logging module"))
  else
  b2 ← logging.hasattr methodName;
  if b2 : bool then
    raise (AttributeError (methodName +:+ " already defined in logging module"))
  else
  b3 ← logging.hasattr_LoggerClass methodName;
  if b3 : bool then
    raise (AttributeError (methodName +:+ " already defined in logger class"))
  else
  logging.addLevelName levelNum levelName;;
  logging.setattr levelName (AInt levelNum);;
  logging.setattr_LoggerClass methodName (ALogForLevel levelNum);;
  logging.setattr methodName (ALogToRoot levelNum).

Definition logging_setup (logLevel : Z) (logToConsole logToFile : bool)
    (logPath : string) : M unit :=
  file_handler ←
    (if logToFile then
       now ← gets clock;
       h ← logging.new_FileHandler (strftime_Ymd now +:+ ".log");
       mret (Some h)
     else mret None);
  let stream_handler := logging.new_StreamHandler in
  let formatter := PlainFormatter log_format in
  let file_handler := logging.setFormatter formatter <$> file_handler in
  let stream_handler := logging.setFormatter formatter stream_handler in
  match file_handler with
  | Some h => logging.addHandler h
  | None => mret tt
  end;;
  addLoggingLevel "SPAM" 5 None;;
  addLoggingLevel "SUCCESS" 35 None;;
  logging.setLevel logLevel;;
  level ← gets root_level;
  coloredlogs.install level log_format log_field_styles.

(** ** A process that has just imported [logging] (CPython 3.11) *)

(** The names for which [hasattr] holds: those of the module's and the
    class's own dictionaries and those found through [object], the module
    type and the metaclass. *)

Definition logging_constants : list (string * attr) :=
  [ ("CRITICAL", AInt 50); ("FATAL", AInt 50); ("ERROR", AInt 40);
    ("WARNING", AInt 30); ("WARN", AInt 30); ("INFO", AInt 20);
    ("DEBUG", AInt 10); ("NOTSET", AInt 0) ].

Definition logging_names : list string :=
  [ "BASIC_FORMAT"; "BufferingFormatter"; "FileHandler"; "Filter"; "Filterer";
    "Formatter"; "GenericAlias"; "Handler"; "LogRecord"; "Logger";
    "LoggerAdapter"; "Manager"; "NullHandler"; "PercentStyle"; "PlaceHolder";
    "RootLogger"; "StrFormatStyle"; "StreamHandler"; "StringTemplateStyle";
    "Template"; "_STYLES"; "_StderrHandler"; "__all__"; "__annotations__";
    "__author__"; "__builtins__"; "__cached__"; "__class__"; "__date__";
    "__delattr__"; "__dict__"; "__dir__"; "__doc__"; "__eq__"; "__file__";
    "__format__"; "__ge__"; "__getattribute__"; "__getstate__"; "__gt__";
    "__hash__"; "__init__"; "__init_subclass__"; "__le__"; "__loader__";
    "__lt__"; "__name__"; "__ne__"; "__new__"; "__package__"; "__path__";
    "__reduce__"; "__reduce_ex__"; "__repr__"; "__setattr__"; "__sizeof__";
    "__spec__"; "__status__"; "__str__"; "__subclasshook__"; "__version__";
    "_acquireLock"; "_addHandlerRef"; "_after_at_fork_child_reinit_locks";
    "_at_fork_reinit_lock_weakset"; "_checkLevel"; "_defaultFormatter";
    "_defaultLastResort"; "_handlerList"; "_handlers"; "_is_internal_frame";
    "_levelToName"; "_lock"; "_logRecordFactory"; "_loggerClass";
    "_nameToLevel"; "_register_at_fork_reinit_lock"; "_releaseLock";
    "_removeHandlerRef"; "_showwarning"; "_srcfile"; "_startTime";
    "_str_formatter"; "_warnings_showwarning"; "addLevelName"; "atexit";
    "basicConfig"; "captureWarnings"; "collections"; "critical";
    "currentframe"; "debug"; "disable"; "error"; "exception"; "fatal";
    "getLevelName"; "getLevelNamesMapping"; "getLogRecordFactory";
    "getLogger"; "getLoggerClass"; "info"; "io"; "lastResort"; "log";
    "logMultiprocessing"; "logProcesses"; "logThreads"; "makeLogRecord"; "os";
    "raiseExceptions"; "re"; "root"; "setLogRecordFactory"; "setLoggerClass";
    "shutdown"; "sys"; "threading"; "time"; "traceback"; "warn"; "warning";
    "warnings"; "weakref" ].

Definition Logger_names : list string :=
  [ "__annotations__"; "__base__"; "__bases__"; "__basicsize__"; "__call__";
    "__class__"; "__delattr__"; "__dict__"; "__dictoffset__"; "__dir__";
    "__doc__"; "__eq__"; "__flags__"; "__format__"; "__ge__";
    "__getattribute__"; "__getstate__"; "__gt__"; "__hash__"; "__init__";
    "__init_subclass__"; "__instancecheck__"; "__itemsize__"; "__le__";
    "__lt__"; "__module__"; "__mro__"; "__name__"; "__ne__"; "__new__";
    "__or__"; "__prepare__"; "__qualname__"; "__reduce__"; "__reduce_ex__";
    "__repr__"; "__ror__"; "__setattr__"; "__sizeof__"; "__str__";
    "__subclasscheck__"; "__subclasses__"; "__subclasshook__";
    "__text_signature__"; "__weakref__"; "__weakrefoffset__"; "_log";
    "addFilter"; "addHandler"; "callHandlers"; "critical"; "debug"; "error";
    "exception"; "fatal"; "filter"; "findCaller"; "getChild";
    "getEffectiveLevel"; "handle"; "hasHandlers"; "info"; "isEnabledFor";
    "log"; "makeRecord"; "manager"; "mro"; "removeFilter"; "removeHandler";
    "root"; "setLevel"; "warn"; "warning" ].

Definition fresh_process (now : date) (writable colors : bool) : world :=
  {| logging_attrs :=
       list_to_map (logging_constants ++ map (fun n => (n, AObject)) logging_names)%list;
     logger_class_attrs := list_to_map (map (fun n => (n, AObject)) Logger_names);
     levelToName :=
       list_to_map [ (50, "CRITICAL"); (40, "ERROR"); (30, "WARNING");
                     (20, "INFO"); (10, "DEBUG"); (0, "NOTSET") ];
     nameToLevel :=
       list_to_map [ ("CRITICAL", 50); ("FATAL", 50); ("ERROR", 40);
                     ("WARN", 30); ("WARNING", 30); ("INFO", 20);
                     ("DEBUG", 10); ("NOTSET", 0) ];
     root_level := 30;
     root_handlers := [];
     files := ∅;
     cwd_writable := writable;
     clock := now;
     stderr_colors := colors |}.

Definition a_day : date := {| year := 2026; month := 11; day := 3 |}.

(** ** The level table of the specification *)

(** The ranks as the specification lists them:
    spam=5, debug=10, info=20, warning=30, success=35, error=40,
    critical=50. *)
Definition level_table : list (string * Z) :=
  [ ("spam", 5); ("debug", 10); ("info", 20); ("warning", 30);
    ("success", 35); ("error", 40); ("critical", 50) ].

Definition rank_of_name (name : string) : option Z :=
  snd <$> find (fun p => String.eqb name (fst p)) level_table.

(** [isinstance(v, int)], [isinstance(v, str)], and the numeric types. *)
Definition isinstance_int (v : pyval) : bool :=
  match v with VInt _ | VBool _ => true | _ => false end.

Definition isinstance_str (v : pyval) : bool :=
  match v with VStr _ => true | _ => false end.

Definition is_numeric (v : pyval) : bool :=
  match v with VInt _ | VBool _ | VFloat _ => true | _ => false end.

(** The value of a string of decimal digits, most significant first. *)
Fixpoint decimal_value (acc : Z) (s : string) : Z :=
  match s with
  | EmptyString => acc
  | String c r => decimal_value (acc * 10 + Char.digit_value c) r
  end.

Fixpoint all_digits (s : string) : bool :=
  match s with
  | EmptyString => true
  | String c r => Char.is_digit c && all_digits r
  end.

(** ** Vocabulary of the statements about the logging state *)

Definition has_logging_attr (w : world) (name : string) : Prop :=
  is_Some (logging_attrs w !! name).

Definition has_logger_attr (w : world) (name : string) : Prop :=
  is_Some (logger_class_attrs w !! name).

(** One of the three collisions [addLoggingLevel] checks for. *)
Definition collides (levelName : string) (methodName : option string)
    (w : world) : Prop :=
  has_logging_attr w levelName
  \/ has_logging_attr w (default_methodName levelName methodName)
  \/ has_logger_attr w (default_methodName levelName methodName).

(** The four assignments at the end of [addLoggingLevel], as one state
    change. *)
Definition registered (levelName : string) (levelNum : Z)
    (methodName : option string) (w : world) : world :=
  let m := default_methodName levelName methodName in
  set_logging_attrs (insert m (ALogToRoot levelNum))
    (set_logger_class_attrs (insert m (ALogForLevel levelNum))
       (set_logging_attrs (insert levelName (AInt levelNum))
          (set_level_tables (insert levelNum levelName)
             (insert levelName levelNum) w))).

Definition handler_fmt (h : Handler) : option string :=
  formatter_fmt <$> h_formatter h.

Definition is_file_handler (h : Handler) : bool :=
  match h_class h with FileHandler _ => true | _ => false end.

Definition log_file_name (w : world) : string :=
  strftime_Ymd (clock w) +:+ ".log".

#[global] Instance collides_dec levelName methodName w :
  Decision (collides levelName methodName w).
Proof. unfold collides, has_logging_attr, has_logger_attr. apply _. Defined.

(** The handler [logging_setup] builds for the log file, with its
    formatter, and the one [coloredlogs.install] builds for the console. *)
Definition the_file_handler (w : world) : Handler :=
  {| h_class := FileHandler (log_file_name w); h_level := 0;
     h_formatter := Some (PlainFormatter log_format) |}.

Definition the_console_handler (level : Z) (w : world) : Handler :=
  {| h_class := StandardErrorHandler; h_level := level;
     h_formatter :=
       Some (if stderr_colors w then ColoredFormatter log_format log_field_styles
             else PlainFormatter log_format) |}.

(** The state in which [logging_setup] leaves the process when nothing
    raises, step by step. *)
Definition with_file_sink (logToFile : bool) (w : world) : world :=
  if logToFile
  then set_root_handlers (fun hs => (hs ++ [the_file_handler w])%list)
         (set_files (fun fs => {[ log_file_name w ]} ∪ fs) w)
  else w.

Definition configured (logLevel : Z) (logToFile : bool) (w : world) : world :=
  set_root_handlers
    (fun hs => (coloredlogs.remove_first coloredlogs.match_stream_handler hs
                ++ [the_console_handler logLevel w])%list)
    (set_root_level logLevel
       (registered "SUCCESS" 35 None
          (registered "SPAM" 5 None (with_file_sink logToFile w)))).

(** Four decimal digits; two decimal digits. *)
Definition is_YYYY (s : string) : bool :=
  Nat.eqb (String.length s) 4 && all_digits s.

Definition is_DD (s : string) : bool :=
  Nat.eqb (String.length s) 2 && all_digits s.

(** ** Log records on the root logger *)

(** One record handed to one handler: the handler, the record's level
    number and its message template. *)
Record emitted : Type := {
  e_handler : Handler;
  e_levelno : Z;
  e_msg : string
}.

Definition deliver (levelno : Z) (msg : string) (h : Handler) : emitted :=
  {| e_handler := h; e_levelno := levelno; e_msg := msg |}.

Module Logger.

Section RootLogger.

(** [logger.disabled] and [logger.manager.disable]: state of the logging
    module that this program never writes. *)
Variable disabled : bool.
Variable manager_disable : Z.

(** [Logger.getEffectiveLevel] on the root logger, which has no parent. *)
Definition getEffectiveLevel : M Z :=
  level ← gets root_level;
  if negb (level =? 0) then mret level else mret 0.

(** [Logger.isEnabledFor]; the cache it keeps is emptied by every
    [setLevel], so it holds what is computed here. *)
Definition isEnabledFor (level : Z) : M bool :=
  if disabled then mret false
  else if manager_disable >=? level then mret false
  else eff ← getEffectiveLevel; mret (level >=? eff).

(** [logging.lastResort]. *)
Definition lastResort : Handler :=
  {| h_class := StreamHandler stderr; h_level := 30; h_formatter := None |}.

(** [Logger.callHandlers] on the root logger, for handlers without
    filters: every handler whose level the record reaches handles it; with
    no handler at all the record goes to [lastResort]. *)
Definition callHandlers (levelno : Z) (msg : string) : M (list emitted) :=
  hs ← gets root_handlers;
  let sent :=
    List.filter (fun h => levelno >=? h_level h) hs in
  let sent :=
    if Nat.eqb (length hs) 0
    then (if levelno >=? h_level lastResort then [lastResort] else [])
    else sent in
  mret (map (deliver levelno msg) sent).

(** [Logger.handle], for a logger without filters. *)
Definition handle (levelno : Z) (msg : string) : M (list emitted) :=
  if negb disabled then callHandlers levelno msg else mret [].

(** [Logger._log]: makes the record and handles it. *)
Definition _log (level : Z) (msg : string) : M (list emitted) :=
  handle level msg.

(** [Logger.log], for an integer level. *)
Definition log (level : Z) (msg : string) : M (list emitted) :=
  en ← isEnabledFor level;
  if en : bool then _log level msg else mret [].

Definition info (msg : string) : M (list emitted) :=
  en ← isEnabledFor 20;
  if en : bool then _log 20 msg else mret [].

Definition debug (msg : string) : M (list emitted) :=
  en ← isEnabledFor 10;
  if en : bool then _log 10 msg else mret [].

End RootLogger.

End Logger.

Definition BASIC_FORMAT : string := "%(levelname)s:%(name)s:%(message)s".

(** [logging.basicConfig()] without arguments: a root logger without
    handlers gets a stream handler on [sys.stderr] with [BASIC_FORMAT]. *)
Definition logging_basicConfig : M unit :=
  hs ← gets root_handlers;
  if Nat.eqb (length hs) 0
  then logging.addHandler
         (logging.setFormatter (PlainFormatter BASIC_FORMAT) logging.new_StreamHandler)
  else mret tt.

(** The module-level [logging.log]. *)
Definition logging_log (disabled : bool) (manager_disable : Z)
    (level : Z) (msg : string) : M (list emitted) :=
  hs ← gets root_handlers;
  (if Nat.eqb (length hs) 0 then logging_basicConfig else mret tt);;
  Logger.log disabled manager_disable level msg.

(** The two closures of [addLoggingLevel], the first one called on the
    root logger. *)
Definition logForLevel (disabled : bool) (manager_disable : Z)
    (levelNum : Z) (message : string) : M (list emitted) :=
  en ← Logger.isEnabledFor disabled manager_disable levelNum;
  if en : bool then Logger._log disabled levelNum message else mret [].

Definition logToRoot (disabled : bool) (manager_disable : Z)
    (levelNum : Z) (message : string) : M (list emitted) :=
  logging_log disabled manager_disable levelNum message.

(** ** The command line: [LoggingArgs] and the main program *)

Definition log_level_type (log_level : pyval) : pyval := log_level.

Module LoggingArgs.

Record t : Type := { log_level : pyval; logToFile : bool }.

(** The class attributes: [logging.INFO] and [False]. *)
Definition defaults : t := {| log_level := VInt 20; logToFile := false |}.

Section Args.

Variable int_max_str_digits : nat.

(** [process_args]: the raw level is replaced by its number. *)
Definition process_args (self : t) : outcome t :=
  match get_log_level int_max_str_digits (log_level self) with
  | Returns n => Returns {| log_level := VInt n; logToFile := logToFile self |}
  | Raises e => Raises e
  end.

(** [parse_args] after the command line is split: [--log-level], when
    given, carries a string that goes through [log_level_type];
    [--logToFile] is a flag.  [process_args] runs last. *)
Definition parse_args (arg_log_level : option string) (arg_logToFile : bool)
  : outcome t :=
  process_args
    {| log_level :=
         match arg_log_level with
         | Some s => log_level_type (VStr s)
         | None => log_level defaults
         end;
       logToFile := arg_logToFile || logToFile defaults |}.

End Args.

End LoggingArgs.

Definition lift_outcome {A} (o : outcome A) : M A :=
  match o with Returns a => mret a | Raises e => raise e end.

(** The [__main__] block.  The last message is the template
    "logArgs: %s"; its argument is not rendered here. *)
Definition main (int_max_str_digits : nat) (disabled : bool) (manager_disable : Z)
    (arg_log_level : option string) (arg_logToFile : bool) : M (list emitted) :=
  logArgs ← lift_outcome
    (LoggingArgs.parse_args int_max_str_digits arg_log_level arg_logToFile);
  match LoggingArgs.log_level logArgs with
  | VInt logLevel =>
      logging_setup logLevel true (LoggingArgs.logToFile logArgs) "";;
      e1 ← Logger.log disabled manager_disable 35 "Logging setup completed";
      e2 ← Logger.info disabled manager_disable "INFO logging enabled";
      e3 ← Logger.debug disabled manager_disable "DEBUG logging enabled";
      e4 ← Logger.log disabled manager_disable 5 "SPAM logging enabled";
      e5 ← Logger.debug disabled manager_disable "logArgs: %s";
      mret (e1 ++ e2 ++ e3 ++ e4 ++ e5)%list
  | _ => raise TypeError
  end.

(** * Properties of [int] and [get_log_level] *)

Section PyIntFacts.

Variable lim : nat.

Lemma digit_not_underscore c : Char.is_digit c = true -> Ascii.eqb c "_" = false.
Proof.
  destruct c as [[] [] [] [] [] [] [] []]; vm_compute; congruence.
Qed.

Lemma digit_is_ascii c : Char.is_digit c = true -> (Char.code c <? 127)%N = true.
Proof.
  destruct c as [[] [] [] [] [] [] [] []]; vm_compute; congruence.
Qed.

Lemma digit_not_space c : Char.is_digit c = true -> Char.Py_ISSPACE c = false.
Proof.
  destruct c as [[] [] [] [] [] [] [] []]; vm_compute; congruence.
Qed.

Lemma scan_digits_all_digits s :
  all_digits s = true ->
  forall prev acc nd,
    (s = EmptyString -> Ascii.eqb prev "_" = false) ->
    scan_digits prev acc nd s
    = Some (decimal_value acc s, (nd + String.length s)%nat, EmptyString).
Proof.
  induction s as [|c r IH]; intros Hd prev acc nd Hprev; simpl in *.
  - rewrite Hprev by reflexivity. do 3 f_equal. lia.
  - apply andb_true_iff in Hd as [Hc Hr]. rewrite Hc.
    rewrite (IH Hr); [do 3 f_equal; lia|].
    intros _. now apply digit_not_underscore.
Qed.

Lemma transform_all_digits s :
  all_digits s = true -> TransformDecimalAndSpaceToASCII s = s.
Proof.
  induction s as [|c r IH]; simpl; [reflexivity|].
  intros [Hc Hr]%andb_true_iff.
  now rewrite (digit_is_ascii _ Hc), (IH Hr).
Qed.

(** A non-empty string of decimal digits within the digit limit is read
    as its decimal value. *)
Lemma int_of_str_digits s :
  all_digits s = true -> s <> EmptyString ->
  exceeds_max_str_digits lim (String.length s) = false ->
  int_of_str lim s = Some (decimal_value 0 s).
Proof.
  intros Hd Hne Hlim. unfold int_of_str. rewrite (transform_all_digits _ Hd).
  destruct s as [|c r]; [congruence|]. clear Hne.
  pose proof Hd as [Hc Hr]%andb_true_iff.
  unfold PyLong_FromString. cbn [skip_space]. rewrite (digit_not_space _ Hc).
  assert (Hsign : match String c r with
                  | String "+" r0 => (false, r0)
                  | String "-" r0 => (true, r0)
                  | _ => (false, String c r)
                  end = (false, String c r)).
  { clear -Hc. destruct c as [[] [] [] [] [] [] [] []]; try reflexivity;
      vm_compute in Hc; congruence. }
  rewrite Hsign. clear Hsign.
  assert (Hus : forall (X : Type) (a b : X),
             match String c r with String "_" _ => a | _ => b end = b).
  { intros X a b. clear -Hc. destruct c as [[] [] [] [] [] [] [] []];
      try reflexivity; vm_compute in Hc; congruence. }
  rewrite Hus. clear Hus.
  rewrite (scan_digits_all_digits _ Hd) by congruence.
  cbn [String.length Nat.add Nat.eqb]. cbn [String.length] in Hlim.
  rewrite Hlim. reflexivity.
Qed.

(** Python's [int] rejects every string whose first character lowers to
    a letter a-z. *)
Lemma int_of_str_letter c r :
  ((97 <=? Char.code (Char.lower c)) && (Char.code (Char.lower c) <=? 122))%N = true ->
  int_of_str lim (String c r) = None.
Proof.
  intros H.
  destruct c as [[] [] [] [] [] [] [] []]; vm_compute in H; try congruence;
    reflexivity.
Qed.

End PyIntFacts.

Section GetLogLevel.

Variable lim : nat.

Lemma str_in_spec x xs : str_in x xs = true <-> x ∈ xs.
Proof.
  unfold str_in. rewrite existsb_exists. split.
  - intros (y & Hy & ->%String.eqb_eq). now apply list_elem_of_In.
  - intros H. exists x. split; [now apply list_elem_of_In | apply String.eqb_refl].
Qed.

Lemma rank_of_name_cases name n :
  rank_of_name name = Some n -> (name, n) ∈ level_table.
Proof.
  unfold rank_of_name, level_table. cbn [find fst].
  repeat match goal with
         | |- context [String.eqb name ?t] =>
             destruct (String.eqb_spec name t) as [->|_];
             [cbn; intros [= <-]; set_solver|]
         end.
  discriminate.
Qed.

Lemma cast_to_int_str s :
  int_of_str lim s = None -> cast_to_int lim (VStr s) = Returns (VStr s).
Proof. intros H. unfold cast_to_int, py_int. now rewrite H. Qed.

Lemma lower_named_not_int s n :
  rank_of_name (lower s) = Some n -> int_of_str lim s = None.
Proof.
  intros H%rank_of_name_cases.
  destruct s as [|c r].
  - exfalso. cbn [lower] in H. unfold level_table in H.
    repeat (apply elem_of_cons in H as [[=]|H]).
    now apply not_elem_of_nil in H.
  - apply int_of_str_letter. cbn [lower] in H.
    unfold level_table in H.
    repeat (apply elem_of_cons in H as [[= -> _ _]|H]; [reflexivity|]).
    set_solver.
Qed.

(** C1: a string whose lower-cased form is one of the seven level names,
    in any letter case, is mapped to the rank the specification's table
    gives for that name: spam=5, debug=10, info=20, warning=30,
    success=35, error=40, critical=50. *)
Theorem get_log_level_names (s : string) (n : Z) :
  rank_of_name (lower s) = Some n ->
  get_log_level lim (VStr s) = Returns n.
Proof.
  intros H. unfold get_log_level.
  rewrite (cast_to_int_str _ (lower_named_not_int _ _ H)).
  apply rank_of_name_cases in H. unfold level_table in H.
  repeat (apply elem_of_cons in H as [[= -> ->]|H]; [reflexivity|]).
  set_solver.
Qed.

(** C2: the numeric parse comes first: a string that [int] accepts is
    returned as that integer; the name table and the invalid-string
    error are not reached. *)
Theorem get_log_level_numeric_string (s : string) (n : Z) :
  int_of_str lim s = Some n ->
  get_log_level lim (VStr s) = Returns n.
Proof.
  intros H. unfold get_log_level, cast_to_int, py_int. now rewrite H.
Qed.

(** C3: a string that [int] rejects and whose lower-cased form is none of
    the seven level names ends the process: [SystemExit] with the message
    that quotes the string; no value is returned. *)
Theorem get_log_level_invalid_string (s : string) :
  int_of_str lim s = None ->
  lower s ∉ level_names ->
  get_log_level lim (VStr s)
  = Raises (SystemExit ("ERROR: '" +:+ s +:+ "' is not a valid log level string.")).
Proof.
  intros Hint Hname. unfold get_log_level. rewrite (cast_to_int_str _ Hint).
  destruct (str_in (lower s) level_names) eqn:E; [|reflexivity].
  apply str_in_spec in E. contradiction.
Qed.

Lemma PyLong_FromString_digits (b : string) :
  all_digits b = true -> b <> EmptyString ->
  exceeds_max_str_digits lim (String.length b) = false ->
  PyLong_FromString lim b = Some (decimal_value 0 b).
Proof.
  intros Hd Hne Hlim.
  rewrite <- (int_of_str_digits lim b Hd Hne Hlim).
  unfold int_of_str. now rewrite (transform_all_digits _ Hd).
Qed.

Lemma int_of_float_finite (sg : bool) (m : positive) (e : Z) :
  int_of_float (S754_finite sg m e)
  = Returns (if 0 <=? e
             then (if sg then Z.neg m else Z.pos m) * 2 ^ e
             else Z.quot (if sg then Z.neg m else Z.pos m) (2 ^ (- e))).
Proof.
  cbn [int_of_float]. f_equal.
  destruct (0 <=? e) eqn:He.
  - destruct sg; [|reflexivity].
    change (Z.neg m) with (- Z.pos m). now rewrite Z.mul_opp_l.
  - apply Z.leb_gt in He.
    assert (Hp : 0 < 2 ^ (- e)) by (apply Z.pow_pos_nonneg; lia).
    destruct sg.
    + change (Z.neg m) with (- Z.pos m).
      rewrite Z.quot_opp_l by lia. f_equal.
      symmetry. apply Z.quot_div_nonneg; lia.
    + symmetry. apply Z.quot_div_nonneg; lia.
Qed.

(** C4, as amended: among the values that are neither an [int] nor a
    [str] (here [None], a list, a [bytes], a [float]), the generic
    [SystemExit] is raised exactly when [int] rejects the value with
    [TypeError] or [ValueError].  The others do not reach it: a finite
    float is returned truncated toward zero, an infinite float lets
    [OverflowError] through, and a [bytes] that [int] parses, such as a
    string of decimal digits, is returned as that number. *)
Theorem get_log_level_other_types (v : pyval) :
  isinstance_int v = false ->
  isinstance_str v = false ->
  (get_log_level lim v
   = Raises (SystemExit "ERROR: --log-level should be an integer or valid log level string.")
   <-> (py_int lim v = Raises TypeError \/ py_int lim v = Raises ValueError))
  /\ (forall sg m e, v = VFloat (S754_finite sg m e) ->
        get_log_level lim v
        = Returns (if 0 <=? e
                   then (if sg then Z.neg m else Z.pos m) * 2 ^ e
                   else Z.quot (if sg then Z.neg m else Z.pos m) (2 ^ (- e))))
  /\ (forall sg, v = VFloat (S754_zero sg) -> get_log_level lim v = Returns 0)
  /\ (forall sg, v = VFloat (S754_infinity sg) ->
        get_log_level lim v = Raises OverflowError)
  /\ (forall b n, v = VBytes b -> int_of_bytes lim b = Some n ->
        get_log_level lim v = Returns n)
  /\ (forall b, v = VBytes b ->
        all_digits b = true -> b <> EmptyString ->
        exceeds_max_str_digits lim (String.length b) = false ->
        get_log_level lim v = Returns (decimal_value 0 b)).
Proof.
  intros Hi Hs. split.
  - unfold get_log_level, cast_to_int.
    destruct v as [n|b|s|b|f| |l]; try discriminate; cbn [py_int].
    + destruct (int_of_bytes lim b); cbn; split; intros H;
        try discriminate; try (destruct H; discriminate); auto.
    + destruct f as [sg|sg| |sg m e]; cbn; split; intros H;
        try discriminate; try (destruct H; discriminate); auto.
    + split; auto.
    + split; auto.
  - repeat split.
    + intros sg m e ->. unfold get_log_level, cast_to_int, py_int.
      now rewrite int_of_float_finite.
    + now intros sg ->.
    + now intros sg ->.
    + intros b n -> Hb. unfold get_log_level, cast_to_int, py_int.
      now rewrite Hb.
    + intros b -> Hd Hne Hlim. unfold get_log_level, cast_to_int, py_int, int_of_bytes.
      now rewrite (PyLong_FromString_digits b Hd Hne Hlim).
Qed.

(** C9: an integer is returned as it is, whatever its sign or size: no
    check against the known ranks, and neither of the two fatal paths. *)
Theorem get_log_level_int (n : Z) :
  get_log_level lim (VInt n) = Returns n
  /\ forall e : exn, get_log_level lim (VInt n) <> Raises e.
Proof.
  assert (E : get_log_level lim (VInt n) = Returns n) by reflexivity.
  split; [exact E|]. intros e. rewrite E. discriminate.
Qed.

End GetLogLevel.

Lemma get_log_level_names_witness :
  rank_of_name (lower "WaRnInG") = Some 30
  /\ get_log_level 4300 (VStr "WaRnInG") = Returns 30.
Proof.
  split; [reflexivity | apply (get_log_level_names 4300 "WaRnInG" 30); reflexivity].
Defined.

Lemma get_log_level_numeric_string_witness :
  int_of_str 4300 "17" = Some 17 /\ get_log_level 4300 (VStr "17") = Returns 17.
Proof.
  split; [reflexivity | apply (get_log_level_numeric_string 4300 "17" 17); reflexivity].
Defined.

Lemma get_log_level_invalid_string_witness :
  get_log_level 4300 (VStr "verbose")
  = Raises (SystemExit "ERROR: 'verbose' is not a valid log level string.").
Proof.
  apply (get_log_level_invalid_string 4300 "verbose"); [reflexivity|].
  unfold level_names. vm_compute. intros H.
  repeat (apply elem_of_cons in H as [H|H]; [discriminate|]).
  now apply not_elem_of_nil in H.
Defined.

Lemma get_log_level_other_types_witness :
  get_log_level 4300 VNone
  = Raises (SystemExit "ERROR: --log-level should be an integer or valid log level string.")
  /\ get_log_level 4300 (VFloat (S754_finite true 5 (-1))) = Returns (-2)
  /\ get_log_level 4300 (VBytes "17") = Returns 17.
Proof.
  split; [|split].
  - apply (proj1 (get_log_level_other_types 4300 VNone eq_refl eq_refl)).
    left. reflexivity.
  - apply (proj1 (proj2 (get_log_level_other_types 4300
                           (VFloat (S754_finite true 5 (-1))) eq_refl eq_refl))
             true 5%positive (-1)).
    reflexivity.
  - apply (proj2 (proj2 (proj2 (proj2 (proj2
             (get_log_level_other_types 4300 (VBytes "17") eq_refl eq_refl)))))
             "17"); [reflexivity | reflexivity | discriminate | reflexivity].
Defined.

(** The claim C4 as written fails: the specification's own example, a
    float, is truncated and returned, and a [bytes] value, which is no
    [int], no [str] and not numeric, is parsed and returned. *)
Lemma get_log_level_other_types_counterexample :
  get_log_level 4300 (VFloat (S754_finite false 5 (-1))) = Returns 2
  /\ ~ (forall v : pyval,
          isinstance_int v = false -> isinstance_str v = false ->
          is_numeric v = false ->
          get_log_level 4300 v
          = Raises (SystemExit "ERROR: --log-level should be an integer or valid log level string.")).
Proof.
  split; [reflexivity|].
  intros H. specialize (H (VBytes "17") eq_refl eq_refl eq_refl). discriminate.
Qed.

(** * Properties of [addLoggingLevel] and [logging_setup] *)

Section Statements.

Implicit Types (w : world) (levelName : string) (levelNum : Z)
  (methodName : option string).

Lemma bind_returns {A B} (m : M A) (k : A -> M B) w a w' :
  m w = (Returns a, w') -> (x ← m; k x) w = k a w'.
Proof. intros H. unfold mbind, M_bind, bind. now rewrite H. Qed.

Lemma bind_raises {A B} (m : M A) (k : A -> M B) w e w' :
  m w = (Raises e, w') -> (x ← m; k x) w = (Raises e, w').
Proof. intros H. unfold mbind, M_bind, bind. now rewrite H. Qed.

Ltac run_registrar :=
  unfold addLoggingLevel, logging.hasattr, logging.hasattr_LoggerClass,
    logging.addLevelName, logging.setattr, logging.setattr_LoggerClass,
    mbind, M_bind, bind, gets, modify, raise.

Lemma addLoggingLevel_ok levelName levelNum methodName w :
  ~ collides levelName methodName w ->
  addLoggingLevel levelName levelNum methodName w
  = (Returns tt, registered levelName levelNum methodName w).
Proof.
  intros H. unfold collides, has_logging_attr, has_logger_attr in H.
  run_registrar. repeat case_bool_decide; tauto || reflexivity.
Qed.

Lemma addLoggingLevel_raises levelName levelNum methodName w :
  collides levelName methodName w ->
  exists msg,
    addLoggingLevel levelName levelNum methodName w
    = (Raises (AttributeError msg), w).
Proof.
  intros H. unfold collides, has_logging_attr, has_logger_attr in H.
  run_registrar. repeat case_bool_decide; eauto. tauto.
Qed.

Lemma addLoggingLevel_raises_levelName levelName levelNum methodName w :
  has_logging_attr w levelName ->
  addLoggingLevel levelName levelNum methodName w
  = (Raises (AttributeError (levelName +:+ " already defined in logging module")), w).
Proof.
  intros H. unfold has_logging_attr in H. run_registrar.
  now rewrite bool_decide_eq_true_2.
Qed.

Lemma addLoggingLevel_outcome levelName levelNum methodName w :
  addLoggingLevel levelName levelNum methodName w
  = (Returns tt, registered levelName levelNum methodName w)
  \/ exists msg,
       addLoggingLevel levelName levelNum methodName w
       = (Raises (AttributeError msg), w).
Proof.
  destruct (decide (collides levelName methodName w)) as [H|H].
  - right. now apply addLoggingLevel_raises.
  - left. now apply addLoggingLevel_ok.
Qed.

Lemma registered_has_levelName levelName levelNum methodName w :
  has_logging_attr (registered levelName levelNum methodName w) levelName.
Proof.
  unfold has_logging_attr, registered. cbn.
  destruct (decide (default_methodName levelName methodName = levelName)) as [->|Hne].
  - rewrite lookup_insert_eq. eauto.
  - rewrite lookup_insert_ne by done. rewrite lookup_insert_eq. eauto.
Qed.

(** Registration only adds names: a collision stays one. *)
Lemma collides_registered levelName levelNum methodName n' m' w :
  collides n' m' w ->
  collides n' m' (registered levelName levelNum methodName w).
Proof.
  assert (Hmono : forall (K : Type) `{Countable K} (V : Type)
                    (t : gmap K V) (k k' : K) (v : V),
             is_Some (t !! k') -> is_Some (<[k:=v]> t !! k')).
  { intros K ? ? V t k k' v Hs. rewrite lookup_insert.
    case_decide; eauto. }
  unfold collides, has_logging_attr, has_logger_attr, registered. cbn.
  intros [H|[H|H]]; [left|right; left|right; right]; auto.
Qed.

Lemma SUCCESS_free_after_SPAM w :
  ~ collides "SUCCESS" None w ->
  ~ collides "SUCCESS" None (registered "SPAM" 5 None w).
Proof.
  unfold collides, has_logging_attr, has_logger_attr, registered. cbn.
  now rewrite !lookup_insert_ne by done.
Qed.

Ltac run_setup :=
  unfold logging_setup, logging.new_FileHandler, logging.addHandler,
    logging.setLevel, coloredlogs.install, coloredlogs.adjust_level,
    mbind, M_bind, bind, mret, M_ret, ret, gets, modify, raise.

(** What [logging_setup] does up to the first registration. *)
Lemma logging_setup_prefix logLevel logToConsole logToFile logPath w :
  (logToFile = true -> cwd_writable w = true) ->
  logging_setup logLevel logToConsole logToFile logPath w
  = (addLoggingLevel "SPAM" 5 None;;
     addLoggingLevel "SUCCESS" 35 None;;
     logging.setLevel logLevel;;
     level ← gets root_level;
     coloredlogs.install level log_format log_field_styles)
      (with_file_sink logToFile w).
Proof.
  intros Hw. unfold with_file_sink. destruct logToFile.
  - run_setup. rewrite Hw by reflexivity. reflexivity.
  - reflexivity.
Qed.

Lemma logging_setup_run logLevel logToConsole logToFile logPath w :
  (logToFile = true -> cwd_writable w = true) ->
  ~ collides "SPAM" None w ->
  ~ collides "SUCCESS" None w ->
  logging_setup logLevel logToConsole logToFile logPath w
  = (Returns tt, configured logLevel logToFile w).
Proof.
  intros Hw H1 H2. rewrite logging_setup_prefix by assumption.
  assert (H1' : ~ collides "SPAM" None (with_file_sink logToFile w)).
  { destruct logToFile; exact H1. }
  assert (H2' : ~ collides "SUCCESS" None (with_file_sink logToFile w)).
  { destruct logToFile; exact H2. }
  erewrite bind_returns by (now apply addLoggingLevel_ok).
  erewrite bind_returns
    by (apply addLoggingLevel_ok; now apply SUCCESS_free_after_SPAM).
  run_setup. cbn. rewrite Z.ltb_irrefl. unfold configured.
  destruct logToFile; reflexivity.
Qed.

Lemma with_file_sink_attrs logToFile w :
  logging_attrs (with_file_sink logToFile w) = logging_attrs w
  /\ logger_class_attrs (with_file_sink logToFile w) = logger_class_attrs w.
Proof. destruct logToFile; split; reflexivity. Qed.

Lemma collides_with_file_sink levelName methodName logToFile w :
  collides levelName methodName (with_file_sink logToFile w)
  <-> collides levelName methodName w.
Proof.
  unfold collides, has_logging_attr, has_logger_attr.
  destruct (with_file_sink_attrs logToFile w) as [-> ->]. reflexivity.
Qed.

Lemma logging_setup_unwritable logLevel logToConsole logPath w :
  cwd_writable w = false ->
  logging_setup logLevel logToConsole true logPath w = (Raises OSError, w).
Proof. intros H. run_setup. now rewrite H. Qed.

(** A collision in either registration leaves [logging_setup] through the
    [AttributeError]. *)
Lemma logging_setup_collision logLevel logToConsole logToFile logPath w :
  (logToFile = true -> cwd_writable w = true) ->
  collides "SPAM" None w \/ collides "SUCCESS" None w ->
  exists msg w',
    logging_setup logLevel logToConsole logToFile logPath w
    = (Raises (AttributeError msg), w').
Proof.
  intros Hw H. rewrite logging_setup_prefix by assumption.
  assert (H' : collides "SPAM" None (with_file_sink logToFile w)
               \/ collides "SUCCESS" None (with_file_sink logToFile w)).
  { destruct H as [H|H]; [left|right]; now apply collides_with_file_sink. }
  clear H. rename H' into H.
  set (w0 := with_file_sink logToFile w) in *.
  destruct (decide (collides "SPAM" None w0)) as [H1|H1].
  - destruct (addLoggingLevel_raises "SPAM" 5 None w0 H1) as [msg E].
    exists msg, w0. now apply bind_raises.
  - destruct H as [H|H]; [contradiction|].
    erewrite bind_returns by (now apply addLoggingLevel_ok).
    destruct (addLoggingLevel_raises "SUCCESS" 35 None
                (registered "SPAM" 5 None w0)) as [msg E].
    { now apply collides_registered. }
    exists msg, (registered "SPAM" 5 None w0). now apply bind_raises.
Qed.

(** A run that returns started from a state without collisions, and ends
    in [configured]. *)
Lemma logging_setup_returns_inv logLevel logToConsole logToFile logPath w w' :
  logging_setup logLevel logToConsole logToFile logPath w = (Returns tt, w') ->
  (logToFile = true -> cwd_writable w = true)
  /\ w' = configured logLevel logToFile w.
Proof.
  intros E.
  assert (Hw : logToFile = true -> cwd_writable w = true).
  { intros ->. destruct (cwd_writable w) eqn:Hc; [reflexivity|].
    rewrite logging_setup_unwritable in E by assumption. discriminate. }
  split; [exact Hw|].
  destruct (decide (collides "SPAM" None w \/ collides "SUCCESS" None w)) as [H|H].
  - destruct (logging_setup_collision logLevel logToConsole logToFile logPath w Hw H)
      as (msg & w2 & E2). congruence.
  - rewrite logging_setup_run in E by tauto. congruence.
Qed.

Lemma configured_has_SPAM logLevel logToFile w :
  collides "SPAM" None (configured logLevel logToFile w).
Proof.
  left. unfold configured, has_logging_attr. cbn.
  rewrite lookup_insert_ne by done. rewrite lookup_insert_ne by done.
  rewrite lookup_insert_ne by done. rewrite lookup_insert_eq. eauto.
Qed.

Lemma Forall_remove_first (P : Handler -> Prop) Q hs :
  Forall P hs -> Forall P (coloredlogs.remove_first Q hs).
Proof.
  induction 1 as [|h hs Hh Hhs IH]; cbn; [constructor|].
  destruct (Q h); [exact Hhs | now constructor].
Qed.

Lemma match_stream_handler_file h :
  coloredlogs.match_stream_handler h = negb (is_file_handler h).
Proof.
  unfold coloredlogs.match_stream_handler, is_file_handler.
  now destruct (h_class h).
Qed.

(** Taking a console handler off leaves the file handlers alone. *)
Lemma filter_remove_first hs :
  List.filter is_file_handler
    (coloredlogs.remove_first coloredlogs.match_stream_handler hs)
  = List.filter is_file_handler hs.
Proof.
  induction hs as [|h hs IH]; [reflexivity|].
  cbn [coloredlogs.remove_first List.filter].
  rewrite match_stream_handler_file.
  destruct (is_file_handler h) eqn:E; cbn [negb List.filter].
  - now rewrite E, IH.
  - reflexivity.
Qed.

Lemma length_append (a b : string) :
  String.length (a +:+ b) = (String.length a + String.length b)%nat.
Proof.
  induction a as [|c a IH]; [reflexivity|].
  change (String c a +:+ b) with (String c (a +:+ b)).
  cbn [String.length]. now rewrite IH.
Qed.

Lemma all_digits_append (a b : string) :
  all_digits (a +:+ b) = all_digits a && all_digits b.
Proof.
  induction a as [|c a IH]; [reflexivity|].
  change (String c a +:+ b) with (String c (a +:+ b)).
  cbn [all_digits]. now rewrite IH, andb_assoc.
Qed.

Lemma year_four_digits (y : N) :
  (1000 <= y <= 9999)%N ->
  is_YYYY (NilEmpty.string_of_uint (N.to_uint y)) = true.
Proof.
  intros Hy.
  assert (Hall : forallb (fun k => is_YYYY (NilEmpty.string_of_uint
                                              (N.to_uint (N.of_nat k))))
                   (seq (N.to_nat 1000) (N.to_nat 9000)) = true) by (vm_compute; reflexivity).
  rewrite forallb_forall in Hall.
  specialize (Hall (N.to_nat y)). rewrite N2Nat.id in Hall.
  apply Hall, in_seq. lia.
Qed.

Lemma two_digits_shape (n : N) : (n < 100)%N -> is_DD (two_digits n) = true.
Proof.
  intros Hn.
  assert (Hall : forallb (fun k => is_DD (two_digits (N.of_nat k)))
                   (seq 0 (N.to_nat 100)) = true) by (vm_compute; reflexivity).
  rewrite forallb_forall in Hall.
  specialize (Hall (N.to_nat n)). rewrite N2Nat.id in Hall.
  apply Hall, in_seq. lia.
Qed.

(** For a four-digit year the stamp is eight decimal digits. *)
Lemma strftime_Ymd_shape (d : date) :
  (1000 <= year d <= 9999)%N -> (month d < 100)%N -> (day d < 100)%N ->
  String.length (strftime_Ymd d) = 8%nat /\ all_digits (strftime_Ymd d) = true.
Proof.
  intros Hy Hm Hd. unfold strftime_Ymd.
  pose proof (year_four_digits _ Hy) as [Ly Dy]%andb_true_iff.
  pose proof (two_digits_shape _ Hm) as [Lm Dm]%andb_true_iff.
  pose proof (two_digits_shape _ Hd) as [Ld Dd]%andb_true_iff.
  apply Nat.eqb_eq in Ly, Lm, Ld.
  rewrite !length_append, !all_digits_append, Ly, Lm, Ld, Dy, Dm, Dd.
  split; reflexivity.
Qed.

(** C5: a level name that is already registered makes [addLoggingLevel]
    raise [AttributeError], in particular on a second call with the same
    name; so does a method name that the logging module or the logger
    class already has.  Nothing catches the error: it leaves
    [logging_setup] too, so a second [logging_setup] in one process
    fails. *)
Theorem addLoggingLevel_collision :
  (forall levelName levelNum methodName w w',
      addLoggingLevel levelName levelNum methodName w = (Returns tt, w') ->
      forall levelNum' methodName',
        addLoggingLevel levelName levelNum' methodName' w'
        = (Raises (AttributeError (levelName +:+ " already defined in logging module")), w'))
  /\ (forall levelName levelNum methodName w,
        has_logging_attr w levelName
        \/ has_logging_attr w (default_methodName levelName methodName)
        \/ has_logger_attr w (default_methodName levelName methodName) ->
        exists msg,
          addLoggingLevel levelName levelNum methodName w
          = (Raises (AttributeError msg), w))
  /\ (forall logLevel logToConsole logToFile logPath w w',
        logging_setup logLevel logToConsole logToFile logPath w = (Returns tt, w') ->
        forall logLevel' logToConsole' logPath',
        exists msg w'',
          logging_setup logLevel' logToConsole' logToFile logPath' w'
          = (Raises (AttributeError msg), w'')).
Proof.
  split; [|split].
  - intros levelName levelNum methodName w w' E levelNum' methodName'.
    destruct (addLoggingLevel_outcome levelName levelNum methodName w)
      as [E'|[msg E']]; [|congruence].
    assert (w' = registered levelName levelNum methodName w) as -> by congruence.
    apply addLoggingLevel_raises_levelName, registered_has_levelName.
  - intros levelName levelNum methodName w H.
    now apply addLoggingLevel_raises.
  - intros logLevel logToConsole logToFile logPath w w' E logLevel' logToConsole' logPath'.
    apply logging_setup_returns_inv in E as [Hw ->].
    apply logging_setup_collision.
    + intros Hf. rewrite <- (Hw Hf). subst logToFile. reflexivity.
    + left. apply configured_has_SPAM.
Qed.

(** C10: when [addLoggingLevel] raises, the level tables, the names of
    the logging module and those of the logger class are what they were
    before the call: the three checks come before the first assignment. *)
Theorem addLoggingLevel_atomic levelName levelNum methodName w e w' :
  addLoggingLevel levelName levelNum methodName w = (Raises e, w') ->
  w' = w.
Proof.
  destruct (addLoggingLevel_outcome levelName levelNum methodName w)
    as [E|[msg E]]; rewrite E; congruence.
Qed.

(** C8, as amended: the rank is not checked.  Whenever the names are
    free the registration goes through, whatever the level tables hold
    for that rank, and afterwards the rank names the new level. *)
Theorem addLoggingLevel_rank_unchecked levelName levelNum methodName w :
  ~ collides levelName methodName w ->
  exists w',
    addLoggingLevel levelName levelNum methodName w = (Returns tt, w')
    /\ levelToName w' !! levelNum = Some levelName
    /\ nameToLevel w' !! levelName = Some levelNum.
Proof.
  intros H. exists (registered levelName levelNum methodName w).
  split; [now apply addLoggingLevel_ok|].
  unfold registered. cbn. now rewrite !lookup_insert_eq.
Qed.

(** C6: after [logging_setup] a console sink is attached to the root
    logger, every attached sink carries the format string
    "%(asctime)s :: %(levelname)-8s :: %(funcName)-17s - %(message)s",
    and the root logger's level is [logLevel].  The run starts without
    name collisions, with a directory that takes the log file when one
    is asked for, and with no sink of another format attached. *)
Theorem logging_setup_configures logLevel logToConsole logToFile logPath w :
  (logToFile = true -> cwd_writable w = true) ->
  ~ collides "SPAM" None w ->
  ~ collides "SUCCESS" None w ->
  Forall (fun h => handler_fmt h
            = Some "%(asctime)s :: %(levelname)-8s :: %(funcName)-17s - %(message)s")
    (root_handlers w) ->
  exists w',
    logging_setup logLevel logToConsole logToFile logPath w = (Returns tt, w')
    /\ (exists h, h ∈ root_handlers w'
                  /\ coloredlogs.match_stream_handler h = true)
    /\ Forall (fun h => handler_fmt h
                 = Some "%(asctime)s :: %(levelname)-8s :: %(funcName)-17s - %(message)s")
         (root_handlers w')
    /\ root_level w' = logLevel.
Proof.
  intros Hw H1 H2 Hfmt. exists (configured logLevel logToFile w).
  split; [now apply logging_setup_run|].
  assert (Hc : handler_fmt (the_console_handler logLevel w) = Some log_format).
  { unfold handler_fmt, the_console_handler. cbn. now destruct (stderr_colors w). }
  unfold configured. cbn [root_handlers set_root_handlers root_level set_root_level registered
                         set_logging_attrs set_logger_class_attrs set_level_tables].
  split; [|split; [|reflexivity]].
  - exists (the_console_handler logLevel w). split; [|reflexivity].
    apply elem_of_app. right. apply list_elem_of_singleton. reflexivity.
  - apply Forall_app. split; [|now repeat constructor].
    apply Forall_remove_first.
    destruct logToFile; cbn; [|exact Hfmt].
    apply Forall_app. split; [exact Hfmt | now repeat constructor].
Qed.

Lemma elem_of_remove_first (Q : Handler -> bool) h hs :
  Q h = false -> h ∈ hs -> h ∈ coloredlogs.remove_first Q hs.
Proof.
  intros Hq. induction hs as [|h' hs IH]; [easy|].
  cbn. intros [->|Hin]%elem_of_cons.
  - rewrite Hq. now left.
  - destruct (Q h'); [exact Hin | right; now apply IH].
Qed.

Lemma root_handlers_configured logLevel logToFile w :
  root_handlers (configured logLevel logToFile w)
  = (coloredlogs.remove_first coloredlogs.match_stream_handler
       (root_handlers w ++ (if logToFile then [the_file_handler w] else []))
     ++ [the_console_handler logLevel w])%list.
Proof. destruct logToFile; cbn; rewrite ?app_nil_r; reflexivity. Qed.

Lemma console_handler_fmt logLevel w :
  handler_fmt (the_console_handler logLevel w) = Some log_format.
Proof.
  unfold handler_fmt, the_console_handler. cbn. now destruct (stderr_colors w).
Qed.

Lemma logging_setup_file_sink_on logLevel logToConsole logPath w :
  cwd_writable w = true ->
  ~ collides "SPAM" None w ->
  ~ collides "SUCCESS" None w ->
  exists w',
    logging_setup logLevel logToConsole true logPath w = (Returns tt, w')
    /\ files w' = {[ log_file_name w ]} ∪ files w
    /\ the_file_handler w ∈ root_handlers w'
    /\ List.filter is_file_handler (root_handlers w')
       = (List.filter is_file_handler (root_handlers w) ++ [the_file_handler w])%list
    /\ exists console,
         last (root_handlers w') = Some console
         /\ coloredlogs.match_stream_handler console = true
         /\ handler_fmt console = Some log_format.
Proof.
  intros Hw H1 H2. exists (configured logLevel true w).
  split; [now apply logging_setup_run|].
  rewrite root_handlers_configured.
  split; [reflexivity|]. split; [|split].
  - apply elem_of_app. left. apply elem_of_remove_first; [reflexivity|].
    apply elem_of_app. right. apply list_elem_of_singleton. reflexivity.
  - rewrite List.filter_app, filter_remove_first, List.filter_app. cbn.
    apply app_nil_r.
  - exists (the_console_handler logLevel w). split; [apply last_snoc|].
    split; [reflexivity | apply console_handler_fmt].
Qed.

Lemma year_decodes (y : N) :
  (1000 <= y <= 9999)%N ->
  decimal_value 0 (NilEmpty.string_of_uint (N.to_uint y)) = Z.of_N y.
Proof.
  intros Hy.
  assert (Hall : forallb (fun k => decimal_value 0 (NilEmpty.string_of_uint
                                                     (N.to_uint (N.of_nat k)))
                                   =? Z.of_nat k)
                   (seq (N.to_nat 1000) (N.to_nat 9000)) = true)
    by (vm_compute; reflexivity).
  rewrite forallb_forall in Hall.
  specialize (Hall (N.to_nat y)). rewrite N2Nat.id in Hall.
  rewrite N_nat_Z in Hall. apply Z.eqb_eq, Hall, in_seq. lia.
Qed.

Lemma two_digits_decodes (n : N) :
  (n < 100)%N -> decimal_value 0 (two_digits n) = Z.of_N n.
Proof.
  intros Hn.
  assert (Hall : forallb (fun k => decimal_value 0 (two_digits (N.of_nat k))
                                   =? Z.of_nat k)
                   (seq 0 (N.to_nat 100)) = true) by (vm_compute; reflexivity).
  rewrite forallb_forall in Hall.
  specialize (Hall (N.to_nat n)). rewrite N2Nat.id in Hall.
  rewrite N_nat_Z in Hall. apply Z.eqb_eq, Hall, in_seq. lia.
Qed.

(** The stamp spells the date: four digits that read as the year, two
    that read as the month and two that read as the day. *)
Lemma strftime_Ymd_decodes (d : date) :
  (1000 <= year d <= 9999)%N -> (month d < 100)%N -> (day d < 100)%N ->
  exists yyyy mm dd,
    strftime_Ymd d = yyyy +:+ mm +:+ dd
    /\ String.length yyyy = 4%nat /\ String.length mm = 2%nat
    /\ String.length dd = 2%nat
    /\ decimal_value 0 yyyy = Z.of_N (year d)
    /\ decimal_value 0 mm = Z.of_N (month d)
    /\ decimal_value 0 dd = Z.of_N (day d).
Proof.
  intros Hy Hm Hd.
  exists (NilEmpty.string_of_uint (N.to_uint (year d))),
    (two_digits (month d)), (two_digits (day d)).
  pose proof (year_four_digits _ Hy) as [Ly _]%andb_true_iff.
  apply Nat.eqb_eq in Ly.
  repeat split; auto using year_decodes, two_digits_decodes.
Qed.

(** Once the file is open the file sink stays, however the run ends. *)
Lemma logging_setup_file_sink_kept logLevel logToConsole logPath w o w' :
  cwd_writable w = true ->
  logging_setup logLevel logToConsole true logPath w = (o, w') ->
  files w' = {[ log_file_name w ]} ∪ files w
  /\ the_file_handler w ∈ root_handlers w'.
Proof.
  intros Hw E. rewrite logging_setup_prefix in E by (intros _; exact Hw).
  assert (Hin : the_file_handler w ∈ (root_handlers w ++ [the_file_handler w])%list).
  { apply elem_of_app. right. apply list_elem_of_singleton. reflexivity. }
  destruct (addLoggingLevel_outcome "SPAM" 5 None (with_file_sink true w))
    as [E1|[msg E1]].
  2:{ erewrite bind_raises in E by exact E1. injection E as _ <-.
      split; [reflexivity | exact Hin]. }
  erewrite bind_returns in E by exact E1.
  destruct (addLoggingLevel_outcome "SUCCESS" 35 None
              (registered "SPAM" 5 None (with_file_sink true w)))
    as [E2|[msg E2]].
  2:{ erewrite bind_raises in E by exact E2. injection E as _ <-.
      split; [reflexivity | exact Hin]. }
  erewrite bind_returns in E by exact E2.
  revert E. run_setup. cbn. rewrite Z.ltb_irrefl. intros [= _ <-]. cbn.
  split; [reflexivity|].
  apply elem_of_app. left. apply elem_of_remove_first; [reflexivity | exact Hin].
Qed.

(** C7: the file sink exists exactly when [logToFile] is set.  Without
    it no file appears and the file handlers of the root logger stay as
    they were, however the run ends.  With it the file <YYYYMMDD>.log,
    stamped with the date at the time of the call, is created, and a
    file handler on that file with the shared format is attached to the
    root logger, also when a later step raises.  The stamp of a date with
    a four-digit year is eight digits: the year, the month and the day of
    the clock, in decimal. *)
Theorem logging_setup_file_sink :
  (forall logLevel logToConsole logPath w o w',
      logging_setup logLevel logToConsole false logPath w = (o, w') ->
      files w' = files w
      /\ List.filter is_file_handler (root_handlers w')
         = List.filter is_file_handler (root_handlers w))
  /\ (forall logLevel logToConsole logPath w,
        cwd_writable w = true ->
        ~ collides "SPAM" None w ->
        ~ collides "SUCCESS" None w ->
        exists w',
          logging_setup logLevel logToConsole true logPath w = (Returns tt, w')
          /\ files w' = {[ strftime_Ymd (clock w) +:+ ".log" ]} ∪ files w
          /\ {| h_class := FileHandler (strftime_Ymd (clock w) +:+ ".log");
                h_level := 0;
                h_formatter := Some (PlainFormatter log_format) |}
             ∈ root_handlers w'
          /\ List.filter is_file_handler (root_handlers w')
             = (List.filter is_file_handler (root_handlers w)
                ++ [ {| h_class := FileHandler (strftime_Ymd (clock w) +:+ ".log");
                        h_level := 0;
                        h_formatter := Some (PlainFormatter log_format) |} ])%list
          /\ exists console,
               last (root_handlers w') = Some console
               /\ coloredlogs.match_stream_handler console = true
               /\ handler_fmt console = Some log_format)
  /\ (forall d : date,
        (1000 <= year d <= 9999)%N -> (month d < 100)%N -> (day d < 100)%N ->
        String.length (strftime_Ymd d) = 8%nat
        /\ all_digits (strftime_Ymd d) = true
        /\ exists yyyy mm dd,
             strftime_Ymd d = yyyy +:+ mm +:+ dd
             /\ String.length yyyy = 4%nat /\ String.length mm = 2%nat
             /\ String.length dd = 2%nat
             /\ decimal_value 0 yyyy = Z.of_N (year d)
             /\ decimal_value 0 mm = Z.of_N (month d)
             /\ decimal_value 0 dd = Z.of_N (day d))
  /\ (forall logLevel logToConsole logPath w o w',
        cwd_writable w = true ->
        logging_setup logLevel logToConsole true logPath w = (o, w') ->
        files w' = {[ strftime_Ymd (clock w) +:+ ".log" ]} ∪ files w
        /\ {| h_class := FileHandler (strftime_Ymd (clock w) +:+ ".log");
              h_level := 0;
              h_formatter := Some (PlainFormatter log_format) |}
           ∈ root_handlers w').
Proof.
  split; [|split; [|split]].
  - intros logLevel logToConsole logPath w o w' E.
    rewrite logging_setup_prefix in E by discriminate.
    cbn [with_file_sink] in E.
    destruct (addLoggingLevel_outcome "SPAM" 5 None w) as [E1|[msg E1]].
    2:{ erewrite bind_raises in E by exact E1.
        injection E as _ <-. split; reflexivity. }
    erewrite bind_returns in E by exact E1.
    destruct (addLoggingLevel_outcome "SUCCESS" 35 None (registered "SPAM" 5 None w))
      as [E2|[msg E2]].
    2:{ erewrite bind_raises in E by exact E2.
        injection E as _ <-. split; reflexivity. }
    erewrite bind_returns in E by exact E2.
    revert E. run_setup. cbn. rewrite Z.ltb_irrefl. intros [= _ <-]. cbn.
    split; [reflexivity|].
    rewrite List.filter_app, filter_remove_first. cbn.
    apply app_nil_r.
  - exact logging_setup_file_sink_on.
  - intros d Hy Hm Hd.
    destruct (strftime_Ymd_shape d Hy Hm Hd) as [Hl Ha].
    split; [exact Hl|]. split; [exact Ha|].
    now apply strftime_Ymd_decodes.
  - exact logging_setup_file_sink_kept.
Qed.

End Statements.

(** * The statements at a freshly started process *)

Lemma fresh_process_free (levelName : string) now writable colors :
  bool_decide (collides levelName None (fresh_process now writable colors)) = false ->
  ~ collides levelName None (fresh_process now writable colors).
Proof. intros H. now apply bool_decide_eq_false in H. Qed.

Lemma addLoggingLevel_collision_witness :
  exists w',
    addLoggingLevel "SPAM" 5 None (fresh_process a_day true true) = (Returns tt, w')
    /\ addLoggingLevel "SPAM" 5 None w'
       = (Raises (AttributeError "SPAM already defined in logging module"), w').
Proof.
  assert (E : addLoggingLevel "SPAM" 5 None (fresh_process a_day true true)
              = (Returns tt, registered "SPAM" 5 None (fresh_process a_day true true))).
  { apply addLoggingLevel_ok, fresh_process_free. vm_compute. reflexivity. }
  eexists. split; [exact E|].
  exact (proj1 addLoggingLevel_collision _ _ _ _ _ E 5 None).
Defined.

Lemma addLoggingLevel_atomic_witness :
  addLoggingLevel "DEBUG" 15 None (fresh_process a_day true true)
  = (Raises (AttributeError "DEBUG already defined in logging module"),
     fresh_process a_day true true)
  /\ fresh_process a_day true true = fresh_process a_day true true.
Proof.
  assert (E : addLoggingLevel "DEBUG" 15 None (fresh_process a_day true true)
              = (Raises (AttributeError "DEBUG already defined in logging module"),
                 fresh_process a_day true true)).
  { apply addLoggingLevel_raises_levelName. vm_compute. eexists. reflexivity. }
  split; [exact E|].
  exact (addLoggingLevel_atomic _ _ _ _ _ _ E).
Defined.

Lemma addLoggingLevel_rank_unchecked_witness :
  exists w',
    addLoggingLevel "TRACE" 10 None (fresh_process a_day true true) = (Returns tt, w')
    /\ levelToName w' !! 10 = Some "TRACE"
    /\ nameToLevel w' !! "TRACE" = Some 10.
Proof.
  apply (addLoggingLevel_rank_unchecked "TRACE" 10 None (fresh_process a_day true true)).
  apply fresh_process_free. vm_compute. reflexivity.
Defined.

(** The claim C8 as written fails: rank 10 belongs to DEBUG, and a level
    TRACE of rank 10 is registered all the same and takes the rank over. *)
Lemma addLoggingLevel_duplicate_rank_counterexample :
  levelToName (fresh_process a_day true true) !! 10 = Some "DEBUG"
  /\ fst (addLoggingLevel "TRACE" 10 None (fresh_process a_day true true)) = Returns tt
  /\ levelToName (snd (addLoggingLevel "TRACE" 10 None (fresh_process a_day true true))) !! 10
     = Some "TRACE".
Proof. repeat split; vm_compute; reflexivity. Qed.

Lemma logging_setup_configures_witness :
  exists w',
    logging_setup 20 true true "" (fresh_process a_day true true) = (Returns tt, w')
    /\ (exists h, h ∈ root_handlers w' /\ coloredlogs.match_stream_handler h = true)
    /\ Forall (fun h => handler_fmt h
                 = Some "%(asctime)s :: %(levelname)-8s :: %(funcName)-17s - %(message)s")
         (root_handlers w')
    /\ root_level w' = 20.
Proof.
  apply (logging_setup_configures 20 true true "" (fresh_process a_day true true)).
  - reflexivity.
  - apply fresh_process_free. vm_compute. reflexivity.
  - apply fresh_process_free. vm_compute. reflexivity.
  - constructor.
Defined.

Lemma logging_setup_file_sink_witness :
  (exists w',
     logging_setup 20 true true "" (fresh_process a_day true false) = (Returns tt, w')
     /\ files w' = {[ "20261103.log" ]}
     /\ root_handlers w'
        = [ {| h_class := FileHandler "20261103.log"; h_level := 0;
               h_formatter := Some (PlainFormatter log_format) |};
            {| h_class := StandardErrorHandler; h_level := 20;
               h_formatter := Some (PlainFormatter log_format) |} ])
  /\ files (snd (logging_setup 20 true false "" (fresh_process a_day true false))) = ∅
  /\ String.length (strftime_Ymd a_day) = 8%nat.
Proof.
  split; [|split].
  - destruct (proj1 (proj2 logging_setup_file_sink) 20 true ""
                (fresh_process a_day true false)) as (w' & E & Hfiles & _).
    + reflexivity.
    + apply fresh_process_free. vm_compute. reflexivity.
    + apply fresh_process_free. vm_compute. reflexivity.
    + exists w'. split; [exact E|]. split.
      * rewrite Hfiles. vm_compute. reflexivity.
      * apply logging_setup_returns_inv in E as [_ ->]. vm_compute. reflexivity.
  - destruct (proj1 logging_setup_file_sink 20 true ""
                (fresh_process a_day true false) _ _ (surjective_pairing _)) as [E _].
    rewrite E. reflexivity.
  - apply (proj1 (proj2 (proj2 logging_setup_file_sink)) a_day);
      cbn [a_day year month day]; lia.
Defined.

(** * Further properties of [get_log_level] *)

Section GetLogLevelMore.

Variable lim : nat.

Lemma named_level_returns s :
  str_in (lower s) level_names = true ->
  exists n, rank_of_name (lower s) = Some n
            /\ get_log_level lim (VStr s) = Returns n.
Proof.
  intros E. apply str_in_spec in E. unfold level_names in E.
  assert (H : exists n, rank_of_name (lower s) = Some n).
  { repeat (apply elem_of_cons in E as [->|E]; [eexists; reflexivity|]).
    now apply not_elem_of_nil in E. }
  destruct H as [n Hn]. exists n. split; [exact Hn|].
  unfold get_log_level.
  rewrite (cast_to_int_str _ _ (lower_named_not_int _ _ _ Hn)).
  apply rank_of_name_cases in Hn. unfold level_table in Hn.
  repeat (apply elem_of_cons in Hn as [[= -> ->]|Hn]; [reflexivity|]).
  now apply not_elem_of_nil in Hn.
Qed.

(** A call on an [int], a [bool], a [str], a [bytes], a [float], [None]
    or a list ends in one of four ways: a number, one of the two
    [SystemExit] messages, or the [OverflowError] of an infinite float.
    The name that [return] reads is always bound. *)
Theorem get_log_level_outcomes (v : pyval) :
  (exists n, get_log_level lim v = Returns n)
  \/ (exists s, v = VStr s
                /\ get_log_level lim v = Raises (SystemExit (invalid_level_string s)))
  \/ get_log_level lim v = Raises (SystemExit invalid_level_type)
  \/ (exists sign, v = VFloat (S754_infinity sign)
                   /\ get_log_level lim v = Raises OverflowError).
Proof.
  destruct v as [n|b|s|b|f| |l].
  - left. now exists n.
  - left. now exists (Z.b2z b).
  - destruct (int_of_str lim s) as [n|] eqn:Ei.
    + left. exists n. unfold get_log_level, cast_to_int, py_int. now rewrite Ei.
    + destruct (str_in (lower s) level_names) eqn:En.
      * left. destruct (named_level_returns s En) as (n & _ & Hn). now exists n.
      * right. left. exists s. split; [reflexivity|].
        unfold get_log_level. rewrite (cast_to_int_str _ _ Ei). now rewrite En.
  - unfold get_log_level, cast_to_int, py_int.
    destruct (int_of_bytes lim b) as [n|]; cbn; [left; now exists n | right; right; now left].
  - destruct f as [sg|sg| |sg m e].
    + left. now eexists.
    + right. right. right. now exists sg.
    + right. right. now left.
    + left. now eexists.
  - right. right. now left.
  - right. right. now left.
Qed.

(** For a string that [int] rejects, the numbers returned are exactly the
    ranks of the table, looked up under the lower-cased string. *)
Theorem get_log_level_rank_iff (s : string) (n : Z) :
  int_of_str lim s = None ->
  get_log_level lim (VStr s) = Returns n <-> rank_of_name (lower s) = Some n.
Proof.
  intros Ei. split.
  - unfold get_log_level. rewrite (cast_to_int_str _ _ Ei).
    destruct (str_in (lower s) level_names) eqn:En; [|discriminate].
    apply str_in_spec in En. unfold level_names in En.
    repeat (apply elem_of_cons in En as [->|En];
            [cbn; intros [= <-]; reflexivity|]).
    now apply not_elem_of_nil in En.
  - intros Hn.
    assert (En : str_in (lower s) level_names = true).
    { apply str_in_spec. apply rank_of_name_cases in Hn. unfold level_table in Hn.
      unfold level_names.
      repeat (apply elem_of_cons in Hn as [[= -> _]|Hn]; [set_solver|]).
      now apply not_elem_of_nil in Hn. }
    destruct (named_level_returns s En) as (n' & Hn' & Hg). congruence.
Qed.

Lemma space_is_ascii c :
  Char.Py_ISSPACE c = true -> (Char.code c <? 127)%N = true.
Proof.
  destruct c as [[] [] [] [] [] [] [] []]; vm_compute; congruence.
Qed.

(** Leading white space is invisible to [int]. *)
Lemma int_of_str_leading_space c s :
  Char.Py_ISSPACE c = true ->
  int_of_str lim (String c s) = int_of_str lim s.
Proof.
  intros Hc. unfold int_of_str. cbn [TransformDecimalAndSpaceToASCII].
  rewrite (space_is_ascii _ Hc). unfold PyLong_FromString.
  cbn [skip_space]. now rewrite Hc.
Qed.

(** White space in front is skipped for a number and fatal for a name:
    the name is lower-cased but not stripped. *)
Theorem get_log_level_leading_space (c : ascii) (s : string) :
  Char.Py_ISSPACE c = true ->
  (forall n, int_of_str lim s = Some n ->
             get_log_level lim (VStr (String c s)) = Returns n)
  /\ (forall n, rank_of_name (lower s) = Some n ->
                get_log_level lim (VStr (String c s))
                = Raises (SystemExit ("ERROR: '" +:+ String c s
                                      +:+ "' is not a valid log level string."))).
Proof.
  intros Hc. split; intros n Hn.
  - unfold get_log_level, cast_to_int, py_int.
    now rewrite (int_of_str_leading_space _ _ Hc), Hn.
  - unfold get_log_level.
    rewrite cast_to_int_str
      by (rewrite (int_of_str_leading_space _ _ Hc);
          now apply (lower_named_not_int _ _ n)).
    destruct (str_in (lower (String c s)) level_names) eqn:En; [|reflexivity].
    exfalso. apply str_in_spec in En. cbn [lower] in En. unfold level_names in En.
    assert (Hl : ((97 <=? Char.code (Char.lower c))
                  && (Char.code (Char.lower c) <=? 122))%N = false).
    { clear -Hc. destruct c as [[] [] [] [] [] [] [] []];
        vm_compute in Hc; try congruence; reflexivity. }
    repeat (apply elem_of_cons in En as [[= Hx _]|En];
            [rewrite Hx in Hl; discriminate|]).
    now apply not_elem_of_nil in En.
Qed.

Lemma digit_head_cases c r (X : Type) (a b : X) :
  Char.is_digit c = true ->
  match String c r with String "_" _ => a | _ => b end = b.
Proof.
  intros Hc. destruct c as [[] [] [] [] [] [] [] []];
    try reflexivity; vm_compute in Hc; congruence.
Qed.

Lemma PyLong_FromString_signed (negative : bool) (ds : string) :
  all_digits ds = true -> ds <> EmptyString ->
  exceeds_max_str_digits lim (String.length ds) = false ->
  PyLong_FromString lim (String (if negative then "-" else "+")%char ds)
  = Some (if negative then - decimal_value 0 ds else decimal_value 0 ds).
Proof.
  intros Hd Hne Hlim. destruct ds as [|c r]; [congruence|]. clear Hne.
  pose proof Hd as [Hc Hr]%andb_true_iff.
  unfold PyLong_FromString.
  assert (Hskip : skip_space Char.Py_ISSPACE
                    (String (if negative then "-" else "+")%char (String c r))
                  = String (if negative then "-" else "+")%char (String c r))
    by now destruct negative.
  rewrite Hskip. clear Hskip.
  assert (Hsign : match String (if negative then "-" else "+")%char (String c r) with
                  | String "+" r0 => (false, r0)
                  | String "-" r0 => (true, r0)
                  | _ => (false, String (if negative then "-" else "+")%char (String c r))
                  end = (negative, String c r)) by now destruct negative.
  rewrite Hsign. clear Hsign.
  rewrite (digit_head_cases c r _ _ _ Hc).
  rewrite (scan_digits_all_digits _ Hd) by congruence.
  cbn [String.length Nat.add Nat.eqb]. cbn [String.length] in Hlim.
  now rewrite Hlim.
Qed.

(** Decimal strings are taken as they are, with a sign too: a negative
    level is accepted like any other, there is no range check. *)
Theorem get_log_level_signed_digits (ds : string) :
  all_digits ds = true -> ds <> EmptyString ->
  exceeds_max_str_digits lim (String.length ds) = false ->
  get_log_level lim (VStr ds) = Returns (decimal_value 0 ds)
  /\ get_log_level lim (VStr ("+" +:+ ds)) = Returns (decimal_value 0 ds)
  /\ get_log_level lim (VStr ("-" +:+ ds)) = Returns (- decimal_value 0 ds).
Proof.
  intros Hd Hne Hlim.
  assert (Hsigned : forall negative : bool,
             int_of_str lim (String (if negative then "-" else "+")%char ds)
             = Some (if negative then - decimal_value 0 ds else decimal_value 0 ds)).
  { intros negative. unfold int_of_str. cbn [TransformDecimalAndSpaceToASCII].
    assert (Ha : (Char.code (if negative then "-" else "+")%char <? 127)%N = true)
      by now destruct negative.
    rewrite Ha, (transform_all_digits _ Hd).
    now apply PyLong_FromString_signed. }
  unfold get_log_level, cast_to_int, py_int.
  repeat split.
  - now rewrite (int_of_str_digits lim ds Hd Hne Hlim).
  - change ("+" +:+ ds) with (String "+" ds). now rewrite (Hsigned false).
  - change ("-" +:+ ds) with (String "-" ds). now rewrite (Hsigned true).
Qed.

End GetLogLevelMore.

(** * Further properties of [addLoggingLevel] and [logging_setup] *)

Section RegistrarMore.

Implicit Types (w : world) (levelName : string) (levelNum : Z)
  (methodName : option string).

Lemma addLoggingLevel_returns_inv levelName levelNum methodName w w' :
  addLoggingLevel levelName levelNum methodName w = (Returns tt, w') ->
  ~ collides levelName methodName w
  /\ w' = registered levelName levelNum methodName w.
Proof.
  intros E. destruct (decide (collides levelName methodName w)) as [H|H].
  - destruct (addLoggingLevel_raises levelName levelNum methodName w H) as [msg E'].
    congruence.
  - split; [exact H|]. rewrite addLoggingLevel_ok in E by exact H. congruence.
Qed.

(** A registration that goes through clobbers no name: what the logging
    module and the logger class had bound stays bound to the same thing,
    and the root logger, the files and the clock are not touched. *)
Theorem addLoggingLevel_preserves levelName levelNum methodName w w' :
  addLoggingLevel levelName levelNum methodName w = (Returns tt, w') ->
  (forall name v, logging_attrs w !! name = Some v ->
                  logging_attrs w' !! name = Some v)
  /\ (forall name v, logger_class_attrs w !! name = Some v ->
                     logger_class_attrs w' !! name = Some v)
  /\ root_level w' = root_level w
  /\ root_handlers w' = root_handlers w
  /\ files w' = files w
  /\ clock w' = clock w.
Proof.
  intros [Hfree ->]%addLoggingLevel_returns_inv.
  unfold collides, has_logging_attr, has_logger_attr in Hfree.
  unfold registered. cbn. repeat split.
  - intros name v Hv.
    rewrite !lookup_insert_ne; [exact Hv| |]; intros <-; apply Hfree; eauto.
  - intros name v Hv.
    rewrite lookup_insert_ne; [exact Hv|]. intros <-. apply Hfree; eauto.
Qed.

(** What a registration binds.  The method name is bound to the two
    closures.  The constant is bound to the number unless the method name
    is the level name itself, as for a level name in lower case without
    an explicit method name: then the name of the constant ends up bound
    to the module-level closure. *)
Theorem addLoggingLevel_bindings levelName levelNum methodName w w' :
  addLoggingLevel levelName levelNum methodName w = (Returns tt, w') ->
  logger_class_attrs w' !! default_methodName levelName methodName
  = Some (ALogForLevel levelNum)
  /\ logging_attrs w' !! default_methodName levelName methodName
     = Some (ALogToRoot levelNum)
  /\ (default_methodName levelName methodName <> levelName ->
      logging_attrs w' !! levelName = Some (AInt levelNum))
  /\ (default_methodName levelName methodName = levelName ->
      logging_attrs w' !! levelName = Some (ALogToRoot levelNum)).
Proof.
  intros [_ ->]%addLoggingLevel_returns_inv. unfold registered. cbn.
  repeat split.
  - apply lookup_insert_eq.
  - apply lookup_insert_eq.
  - intros Hne. rewrite lookup_insert_ne by exact Hne. apply lookup_insert_eq.
  - intros ->. apply lookup_insert_eq.
Qed.

(** The level tables after a registration: the new pair is in both, every
    other rank and every other name is as before.  A name that held the
    rank before therefore still maps to it, while the rank now names the
    new level. *)
Theorem addLoggingLevel_level_tables levelName levelNum methodName w w' :
  addLoggingLevel levelName levelNum methodName w = (Returns tt, w') ->
  levelToName w' !! levelNum = Some levelName
  /\ nameToLevel w' !! levelName = Some levelNum
  /\ (forall rank, rank <> levelNum ->
                   levelToName w' !! rank = levelToName w !! rank)
  /\ (forall name, name <> levelName ->
                   nameToLevel w' !! name = nameToLevel w !! name).
Proof.
  intros [_ ->]%addLoggingLevel_returns_inv. unfold registered. cbn.
  repeat split.
  - apply lookup_insert_eq.
  - apply lookup_insert_eq.
  - intros rank Hne. now rewrite lookup_insert_ne.
  - intros name Hne. now rewrite lookup_insert_ne.
Qed.

End RegistrarMore.

Section SetupMore.

Implicit Types (w : world) (logLevel : Z) (logToConsole logToFile : bool)
  (logPath : string).

Lemma logging_setup_returns_free logLevel logToConsole logToFile logPath w w' :
  logging_setup logLevel logToConsole logToFile logPath w = (Returns tt, w') ->
  (logToFile = true -> cwd_writable w = true)
  /\ ~ collides "SPAM" None w /\ ~ collides "SUCCESS" None w.
Proof.
  intros E. pose proof E as [Hw _]%logging_setup_returns_inv.
  split; [exact Hw|].
  assert (Hnc : ~ (collides "SPAM" None w \/ collides "SUCCESS" None w)).
  { intros Hc.
    destruct (logging_setup_collision logLevel logToConsole logToFile logPath w Hw Hc)
      as (msg & w2 & E2). congruence. }
  tauto.
Qed.

(** [logging_setup] returns exactly when the log file, if asked for, can
    be opened and neither of the two registrations collides.  When the
    file cannot be opened, [OSError] comes before any level is
    registered, any sink attached, any file created or the root logger's
    level set.  (By then the function has bound the module's global
    [logger], which is no part of the state described here.) *)
Theorem logging_setup_returns_iff logLevel logToConsole logToFile logPath w :
  ((exists w', logging_setup logLevel logToConsole logToFile logPath w = (Returns tt, w'))
   <-> (logToFile = true -> cwd_writable w = true)
       /\ ~ collides "SPAM" None w /\ ~ collides "SUCCESS" None w)
  /\ (logToFile = true -> cwd_writable w = false ->
      exists w',
        logging_setup logLevel logToConsole logToFile logPath w = (Raises OSError, w')
        /\ logging_attrs w' = logging_attrs w
        /\ logger_class_attrs w' = logger_class_attrs w
        /\ levelToName w' = levelToName w
        /\ nameToLevel w' = nameToLevel w
        /\ root_level w' = root_level w
        /\ root_handlers w' = root_handlers w
        /\ files w' = files w).
Proof.
  split; [split|].
  - intros [w' E]. now apply logging_setup_returns_free in E.
  - intros (Hw & H1 & H2). eexists. now apply logging_setup_run.
  - intros -> Hw. exists w. split; [now apply logging_setup_unwritable|].
    repeat split.
Qed.

Lemma logging_setup_SPAM_taken logLevel logToConsole logToFile logPath w :
  (logToFile = true -> cwd_writable w = true) ->
  has_logging_attr w "SPAM" ->
  logging_setup logLevel logToConsole logToFile logPath w
  = (Raises (AttributeError "SPAM already defined in logging module"),
     with_file_sink logToFile w).
Proof.
  intros Hw Hs. rewrite logging_setup_prefix by assumption.
  apply bind_raises.
  apply (addLoggingLevel_raises_levelName "SPAM" 5 None).
  unfold has_logging_attr in *.
  now destruct (with_file_sink_attrs logToFile w) as [-> _].
Qed.

Lemma configured_SPAM_attr logLevel logToFile w :
  has_logging_attr (configured logLevel logToFile w) "SPAM".
Proof.
  unfold configured, has_logging_attr. cbn.
  rewrite lookup_insert_ne by done. rewrite lookup_insert_ne by done.
  rewrite lookup_insert_ne by done. rewrite lookup_insert_eq. eauto.
Qed.

(** A second [logging_setup] with [logToFile] fails on SPAM, but only
    after it has opened the log file and attached one more file handler:
    the root logger keeps its level and all its sinks, and gains a
    further handler on the dated file. *)
Theorem logging_setup_twice_file_handler
    logLevel logToConsole logToFile logPath w w1 logLevel' logToConsole' logPath' :
  logging_setup logLevel logToConsole logToFile logPath w = (Returns tt, w1) ->
  cwd_writable w1 = true ->
  exists w2,
    logging_setup logLevel' logToConsole' true logPath' w1
    = (Raises (AttributeError "SPAM already defined in logging module"), w2)
    /\ root_handlers w2
       = (root_handlers w1
          ++ [ {| h_class := FileHandler (strftime_Ymd (clock w1) +:+ ".log");
                  h_level := 0;
                  h_formatter := Some (PlainFormatter log_format) |} ])%list
    /\ files w2 = {[ strftime_Ymd (clock w1) +:+ ".log" ]} ∪ files w1
    /\ root_level w2 = logLevel.
Proof.
  intros E Hw1. apply logging_setup_returns_inv in E as [_ ->].
  eexists. split.
  - apply logging_setup_SPAM_taken; [intros _; exact Hw1|].
    apply configured_SPAM_attr.
  - repeat split.
Qed.

(** A collision on SUCCESS alone stops [logging_setup] half way: SPAM
    stays registered, the root logger's level is not set and no console
    sink is added. *)
Theorem logging_setup_half_registered logLevel logToConsole logToFile logPath w :
  (logToFile = true -> cwd_writable w = true) ->
  ~ collides "SPAM" None w ->
  collides "SUCCESS" None w ->
  exists msg w',
    logging_setup logLevel logToConsole logToFile logPath w
    = (Raises (AttributeError msg), w')
    /\ logging_attrs w' !! "SPAM" = Some (AInt 5)
    /\ logger_class_attrs w' !! "spam" = Some (ALogForLevel 5)
    /\ levelToName w' !! 5 = Some "SPAM"
    /\ root_level w' = root_level w
    /\ List.filter coloredlogs.match_stream_handler (root_handlers w')
       = List.filter coloredlogs.match_stream_handler (root_handlers w).
Proof.
  intros Hw H1 H2. rewrite logging_setup_prefix by assumption.
  apply (collides_with_file_sink _ _ logToFile) in H2.
  assert (H1' : ~ collides "SPAM" None (with_file_sink logToFile w))
    by now rewrite collides_with_file_sink.
  destruct (addLoggingLevel_raises "SUCCESS" 35 None
              (registered "SPAM" 5 None (with_file_sink logToFile w)))
    as [msg E]; [now apply collides_registered|].
  exists msg, (registered "SPAM" 5 None (with_file_sink logToFile w)).
  split.
  - erewrite bind_returns by (now apply addLoggingLevel_ok).
    now apply bind_raises.
  - unfold registered. cbn. rewrite lookup_insert_ne by done.
    rewrite !lookup_insert_eq.
    destruct logToFile; cbn; repeat split.
    rewrite List.filter_app. cbn. apply app_nil_r.
Qed.

(** After [logging_setup] the two levels are known under their names and
    numbers, the four names are bound, and nothing that was there before
    is lost: every other rank names what it named, and every name of the
    logging module and of the logger class is bound as before. *)
Theorem logging_setup_registers logLevel logToConsole logToFile logPath w w' :
  logging_setup logLevel logToConsole logToFile logPath w = (Returns tt, w') ->
  (levelToName w' !! 5 = Some "SPAM" /\ levelToName w' !! 35 = Some "SUCCESS"
   /\ nameToLevel w' !! "SPAM" = Some 5 /\ nameToLevel w' !! "SUCCESS" = Some 35)
  /\ (logging_attrs w' !! "SPAM" = Some (AInt 5)
      /\ logging_attrs w' !! "SUCCESS" = Some (AInt 35)
      /\ logging_attrs w' !! "spam" = Some (ALogToRoot 5)
      /\ logging_attrs w' !! "success" = Some (ALogToRoot 35)
      /\ logger_class_attrs w' !! "spam" = Some (ALogForLevel 5)
      /\ logger_class_attrs w' !! "success" = Some (ALogForLevel 35))
  /\ (forall rank, rank <> 5 -> rank <> 35 ->
                   levelToName w' !! rank = levelToName w !! rank)
  /\ (forall name v, logging_attrs w !! name = Some v ->
                     logging_attrs w' !! name = Some v)
  /\ (forall name v, logger_class_attrs w !! name = Some v ->
                     logger_class_attrs w' !! name = Some v).
Proof.
  intros E.
  assert (Hfree : ~ collides "SPAM" None w /\ ~ collides "SUCCESS" None w).
  { now apply logging_setup_returns_free in E as (_ & ? & ?). }
  apply logging_setup_returns_inv in E as [_ ->].
  destruct Hfree as [H1 H2].
  unfold collides, has_logging_attr, has_logger_attr in H1, H2.
  change (default_methodName "SPAM" None) with "spam" in H1.
  change (default_methodName "SUCCESS" None) with "success" in H2.
  unfold configured, registered.
  change (default_methodName "SPAM" None) with "spam".
  change (default_methodName "SUCCESS" None) with "success".
  cbn.
  destruct (with_file_sink_attrs logToFile w) as [-> ->].
  assert (Ht : levelToName (with_file_sink logToFile w) = levelToName w
               /\ nameToLevel (with_file_sink logToFile w) = nameToLevel w)
    by (destruct logToFile; split; reflexivity).
  destruct Ht as [-> ->].
  split; [|split; [|split; [|split]]].
  - repeat split; repeat (rewrite lookup_insert_ne by done); apply lookup_insert_eq.
  - repeat split; repeat (rewrite lookup_insert_ne by done); apply lookup_insert_eq.
  - intros rank Hr5 Hr35. now rewrite !lookup_insert_ne by congruence.
  - intros name v Hv.
    assert (Hne : name <> "SPAM" /\ name <> "spam"
                  /\ name <> "SUCCESS" /\ name <> "success").
    { repeat split; intros ->;
        solve [ apply H1; unfold is_Some; eauto 6
              | apply H2; unfold is_Some; eauto 6 ]. }
    destruct Hne as (? & ? & ? & ?).
    now rewrite !lookup_insert_ne by congruence.
  - intros name v Hv.
    assert (Hne : name <> "spam" /\ name <> "success").
    { repeat split; intros ->;
        solve [ apply H1; unfold is_Some; eauto 6
              | apply H2; unfold is_Some; eauto 6 ]. }
    destruct Hne as (? & ?).
    now rewrite !lookup_insert_ne by congruence.
Qed.

Lemma configured_sinks logLevel logToFile w :
  root_handlers w = [] ->
  root_handlers (configured logLevel logToFile w)
  = ((if logToFile then [the_file_handler w] else [])
     ++ [the_console_handler logLevel w])%list.
Proof.
  intros Hh. rewrite root_handlers_configured, Hh. now destruct logToFile.
Qed.

(** Started on a root logger without handlers, [logging_setup] leaves
    exactly the file sink, if asked for, followed by the console sink.
    The file handler lets every level through; the console handler has
    the level [logLevel]. *)
Theorem logging_setup_sinks logLevel logToConsole logToFile logPath w w' :
  logging_setup logLevel logToConsole logToFile logPath w = (Returns tt, w') ->
  root_handlers w = [] ->
  root_handlers w'
  = ((if logToFile
      then [ {| h_class := FileHandler (strftime_Ymd (clock w) +:+ ".log");
                h_level := 0;
                h_formatter := Some (PlainFormatter log_format) |} ]
      else [])
     ++ [ {| h_class := StandardErrorHandler;
             h_level := logLevel;
             h_formatter :=
               Some (if stderr_colors w
                     then ColoredFormatter log_format log_field_styles
                     else PlainFormatter log_format) |} ])%list.
Proof.
  intros [_ ->]%logging_setup_returns_inv Hh.
  now apply configured_sinks.
Qed.

End SetupMore.

(** * The records that are emitted *)

Section Emission.

(** [logger.manager.disable]; the logger itself is not disabled. *)
Variable d : Z.

Lemma getEffectiveLevel_root w :
  Logger.getEffectiveLevel w = (Returns (root_level w), w).
Proof.
  unfold Logger.getEffectiveLevel, mbind, M_bind, bind, gets, mret, M_ret, ret.
  destruct (root_level w =? 0) eqn:E; cbn; [|reflexivity].
  apply Z.eqb_eq in E. now rewrite E.
Qed.

Lemma enabled_bool k l :
  negb (d >=? k) && (k >=? l) = (d <? k) && (l <=? k).
Proof. rewrite !Z.geb_leb, Z.ltb_antisym. reflexivity. Qed.

Lemma isEnabledFor_root k w :
  Logger.isEnabledFor false d k w
  = (Returns ((d <? k) && (root_level w <=? k)), w).
Proof.
  unfold Logger.isEnabledFor. rewrite <- enabled_bool.
  destruct (d >=? k); [reflexivity|].
  now erewrite bind_returns by apply getEffectiveLevel_root.
Qed.

(** The handlers a record of level [k] reaches. *)
Lemma callHandlers_root k msg w :
  Logger.callHandlers k msg w
  = (Returns (map (deliver k msg)
                (match root_handlers w with
                 | [] => if 30 <=? k then [Logger.lastResort] else []
                 | _ :: _ => List.filter (fun h => h_level h <=? k) (root_handlers w)
                 end)), w).
Proof.
  unfold Logger.callHandlers, mbind, M_bind, bind, gets, mret, M_ret, ret.
  destruct (root_handlers w) as [|h hs]; cbn [length Nat.eqb].
  - cbn. now rewrite Z.geb_leb.
  - do 3 f_equal. apply List.filter_ext. intros h'. apply Z.geb_leb.
Qed.

Lemma log_root k msg w :
  Logger.log false d k msg w
  = (Returns (if (d <? k) && (root_level w <=? k)
              then map (deliver k msg)
                     (match root_handlers w with
                      | [] => if 30 <=? k then [Logger.lastResort] else []
                      | _ :: _ => List.filter (fun h => h_level h <=? k) (root_handlers w)
                      end)
              else []), w).
Proof.
  unfold Logger.log. erewrite bind_returns by apply isEnabledFor_root.
  destruct ((d <? k) && (root_level w <=? k)); [|reflexivity].
  apply callHandlers_root.
Qed.

Lemma logForLevel_log k msg : logForLevel false d k msg = Logger.log false d k msg.
Proof. reflexivity. Qed.

End Emission.

Section EmissionAfterSetup.

Variable d : Z.

Lemma logToRoot_with_handlers k msg w h hs :
  root_handlers w = h :: hs ->
  logToRoot false d k msg w = Logger.log false d k msg w.
Proof.
  intros H. unfold logToRoot, logging_log.
  erewrite bind_returns by reflexivity. rewrite H. cbn [length Nat.eqb].
  now erewrite bind_returns by reflexivity.
Qed.

Lemma log_configured logLevel logToFile w k msg :
  root_handlers w = [] ->
  0 <= d ->
  Logger.log false d k msg (configured logLevel logToFile w)
  = (Returns (if (d <? k) && (logLevel <=? k)
              then map (deliver k msg)
                     (root_handlers (configured logLevel logToFile w))
              else []), configured logLevel logToFile w).
Proof.
  intros Hh Hd. rewrite log_root.
  change (root_level (configured logLevel logToFile w)) with logLevel.
  destruct ((d <? k) && (logLevel <=? k)) eqn:En; [|reflexivity].
  apply andb_true_iff in En as [Hdk HLk].
  apply Z.ltb_lt in Hdk. apply Z.leb_le in HLk.
  do 3 f_equal. rewrite (configured_sinks _ _ _ Hh).
  destruct logToFile; cbn [app List.filter h_level the_file_handler the_console_handler];
    repeat match goal with
           | |- context [?a <=? k] =>
               replace (a <=? k) with true by (symmetry; apply Z.leb_le; lia)
           end; reflexivity.
Qed.

(** After [logging_setup] on a root logger that had no handler and is
    not disabled, a record of level [k] passes the logger exactly when
    [k] is above the module-wide [disable] threshold and at least
    [logLevel]; it is then handed to each sink whose own level it
    reaches, and that is every sink as soon as [k] is not negative.  The
    method installed on the logger class, the function installed on the
    module and [logger.log] agree, and none of them changes the logging
    state. *)
Theorem log_after_setup logLevel logToConsole logToFile logPath w w' k msg :
  logging_setup logLevel logToConsole logToFile logPath w = (Returns tt, w') ->
  root_handlers w = [] ->
  logForLevel false d k msg w'
  = (Returns (if (d <? k) && (logLevel <=? k)
              then map (deliver k msg)
                     (List.filter (fun h => h_level h <=? k) (root_handlers w'))
              else []), w')
  /\ (0 <= k -> logLevel <= k ->
      List.filter (fun h => h_level h <=? k) (root_handlers w') = root_handlers w')
  /\ logToRoot false d k msg w' = logForLevel false d k msg w'
  /\ Logger.log false d k msg w' = logForLevel false d k msg w'.
Proof.
  intros [_ ->]%logging_setup_returns_inv Hh.
  pose proof (configured_sinks logLevel logToFile w Hh) as Hs.
  split; [|split; [|split; [|reflexivity]]].
  - rewrite logForLevel_log, log_root.
    change (root_level (configured logLevel logToFile w)) with logLevel.
    destruct (root_handlers (configured logLevel logToFile w)) as [|h hs] eqn:Eh;
      [destruct logToFile; discriminate Hs | reflexivity].
  - intros Hk HL. rewrite Hs.
    destruct logToFile; cbn [app List.filter h_level the_file_handler the_console_handler];
      repeat match goal with
             | |- context [?a <=? k] =>
                 replace (a <=? k) with true by (symmetry; apply Z.leb_le; lia)
             end; reflexivity.
  - destruct (root_handlers (configured logLevel logToFile w)) as [|h hs] eqn:Eh.
    + destruct logToFile; discriminate Hs.
    + now apply (logToRoot_with_handlers k msg _ h hs).
Qed.

(** Before any handler exists the two closures differ (the root logger
    is not disabled).  The function on the module first calls
    [basicConfig], which leaves a stream handler of level 0 with the
    basic format on the root logger; the record goes there when it
    passes the logger and its level is not negative.  The method on the
    logger leaves the state alone, and a record that passes the logger
    reaches the last-resort handler only from WARNING on. *)
Theorem log_without_handlers w k msg :
  root_handlers w = [] ->
  (exists w',
     logToRoot false d k msg w
     = (Returns (if (d <? k) && (root_level w <=? k) && (0 <=? k)
                 then [ deliver k msg
                          {| h_class := StreamHandler stderr; h_level := 0;
                             h_formatter := Some (PlainFormatter BASIC_FORMAT) |} ]
                 else []), w')
     /\ root_handlers w'
        = [ {| h_class := StreamHandler stderr; h_level := 0;
               h_formatter := Some (PlainFormatter BASIC_FORMAT) |} ]
     /\ root_level w' = root_level w)
  /\ logForLevel false d k msg w
     = (Returns (if (d <? k) && (root_level w <=? k) && (30 <=? k)
                 then [ deliver k msg
                          {| h_class := StreamHandler stderr; h_level := 30;
                             h_formatter := None |} ]
                 else []), w).
Proof.
  intros Hh. split.
  - eexists. split; [|split].
    + unfold logToRoot, logging_log.
      erewrite bind_returns by reflexivity. rewrite Hh. cbn [length Nat.eqb].
      erewrite bind_returns.
      2:{ unfold logging_basicConfig. erewrite bind_returns by reflexivity.
          rewrite Hh. cbn [length Nat.eqb]. reflexivity. }
      rewrite log_root. cbn. rewrite Hh. cbn.
      destruct ((d <? k) && (root_level w <=? k)); [|reflexivity].
      cbn [andb]. now destruct (0 <=? k).
    + cbn. now rewrite Hh.
    + reflexivity.
  - rewrite logForLevel_log, log_root, Hh.
    destruct ((d <? k) && (root_level w <=? k)); cbn; [|reflexivity].
    now destruct (30 <=? k).
Qed.

End EmissionAfterSetup.

Section MainProgram.

Variable lim : nat.
Variable d : Z.

Lemma info_log msg : Logger.info false d msg = Logger.log false d 20 msg.
Proof. reflexivity. Qed.

Lemma debug_log msg : Logger.debug false d msg = Logger.log false d 10 msg.
Proof. reflexivity. Qed.

(** [process_args] twice is [process_args] once. *)
Theorem process_args_idempotent (a a' : LoggingArgs.t) :
  LoggingArgs.process_args lim a = Returns a' ->
  LoggingArgs.process_args lim a' = Returns a'.
Proof.
  unfold LoggingArgs.process_args.
  destruct (get_log_level lim (LoggingArgs.log_level a)) as [n|e]; [|discriminate].
  intros [= <-]. reflexivity.
Qed.

(** A level that [get_log_level] refuses ends the program before the
    logging state is touched: no level is registered, no sink attached,
    no file created. *)
Theorem main_refused_level disabled (arg_log_level : option string)
    (arg_logToFile : bool) (e : exn) (w : world) :
  get_log_level lim (match arg_log_level with
                     | Some s => VStr s
                     | None => VInt 20
                     end) = Raises e ->
  main lim disabled d arg_log_level arg_logToFile w = (Raises e, w).
Proof.
  intros H. unfold main. apply bind_raises.
  unfold LoggingArgs.parse_args, LoggingArgs.process_args, log_level_type.
  cbn [LoggingArgs.log_level LoggingArgs.defaults].
  now rewrite H.
Qed.

(** A run of the main program that gets through [logging_setup]: the
    level given on the command line is the root logger's level, and of
    the five start-up records those at or above it are handed to every
    sink, in the order of the program. *)
Theorem main_run (arg_log_level : option string) (arg_logToFile : bool)
    (logLevel : Z) (w w' : world) :
  get_log_level lim (match arg_log_level with
                     | Some s => VStr s
                     | None => VInt 20
                     end) = Returns logLevel ->
  logging_setup logLevel true arg_logToFile "" w = (Returns tt, w') ->
  root_handlers w = [] ->
  0 <= d ->
  main lim false d arg_log_level arg_logToFile w
  = (Returns
       (flat_map
          (fun r : Z * string =>
             if (d <? fst r) && (logLevel <=? fst r)
             then map (deliver (fst r) (snd r)) (root_handlers w') else [])
          [ (35, "Logging setup completed"); (20, "INFO logging enabled");
            (10, "DEBUG logging enabled"); (5, "SPAM logging enabled");
            (10, "logArgs: %s") ]), w')
  /\ root_level w' = logLevel.
Proof.
  intros Hg E Hh Hd.
  assert (Hl : root_level w' = logLevel).
  { pose proof E as [_ ->]%logging_setup_returns_inv. reflexivity. }
  split; [|exact Hl].
  assert (Hlog : forall k msg,
             Logger.log false d k msg w'
             = (Returns (if (d <? k) && (logLevel <=? k)
                         then map (deliver k msg) (root_handlers w') else []), w')).
  { intros k msg. pose proof E as [_ ->]%logging_setup_returns_inv.
    now apply log_configured. }
  unfold main.
  erewrite bind_returns.
  2:{ unfold LoggingArgs.parse_args, LoggingArgs.process_args, log_level_type.
      cbn [LoggingArgs.log_level LoggingArgs.defaults LoggingArgs.logToFile].
      rewrite Hg. reflexivity. }
  cbn [LoggingArgs.log_level LoggingArgs.logToFile].
  rewrite orb_false_r.
  erewrite bind_returns by exact E.
  rewrite info_log, !debug_log.
  erewrite bind_returns by apply Hlog.
  erewrite bind_returns by apply Hlog.
  erewrite bind_returns by apply Hlog.
  erewrite bind_returns by apply Hlog.
  erewrite bind_returns by apply Hlog.
  cbn [flat_map fst snd]. rewrite app_nil_r. reflexivity.
Qed.

End MainProgram.

(** * The further statements at a freshly started process *)

Lemma fresh_process_setup logLevel logToConsole logToFile logPath now colors :
  logging_setup logLevel logToConsole logToFile logPath (fresh_process now true colors)
  = (Returns tt, configured logLevel logToFile (fresh_process now true colors)).
Proof.
  apply logging_setup_run.
  - reflexivity.
  - apply fresh_process_free. vm_compute. reflexivity.
  - apply fresh_process_free. vm_compute. reflexivity.
Qed.

Lemma fresh_process_registers levelName levelNum now colors :
  bool_decide (collides levelName None (fresh_process now true colors)) = false ->
  addLoggingLevel levelName levelNum None (fresh_process now true colors)
  = (Returns tt, registered levelName levelNum None (fresh_process now true colors)).
Proof. intros H. now apply addLoggingLevel_ok, fresh_process_free. Qed.

Lemma get_log_level_rank_iff_witness :
  int_of_str 4300 "Debug" = None
  /\ (get_log_level 4300 (VStr "Debug") = Returns 10
      <-> rank_of_name (lower "Debug") = Some 10).
Proof.
  split; [reflexivity | apply (get_log_level_rank_iff 4300 "Debug" 10); reflexivity].
Defined.

Lemma get_log_level_leading_space_witness :
  get_log_level 4300 (VStr " 10") = Returns 10
  /\ get_log_level 4300 (VStr " debug")
     = Raises (SystemExit "ERROR: ' debug' is not a valid log level string.").
Proof.
  destruct (get_log_level_leading_space 4300 " " "10" eq_refl) as [Hn _].
  destruct (get_log_level_leading_space 4300 " " "debug" eq_refl) as [_ Hs].
  split; [apply (Hn 10); reflexivity | apply (Hs 10); reflexivity].
Defined.

Lemma get_log_level_signed_digits_witness :
  get_log_level 4300 (VStr "5") = Returns 5
  /\ get_log_level 4300 (VStr "+5") = Returns 5
  /\ get_log_level 4300 (VStr "-5") = Returns (-5).
Proof.
  apply (get_log_level_signed_digits 4300 "5"); [reflexivity | discriminate | reflexivity].
Defined.

Lemma addLoggingLevel_preserves_witness :
  exists w',
    addLoggingLevel "TRACE" 5 None (fresh_process a_day true true) = (Returns tt, w')
    /\ logging_attrs w' !! "DEBUG" = Some (AInt 10)
    /\ root_level w' = 30.
Proof.
  pose proof (fresh_process_registers "TRACE" 5 a_day true eq_refl) as E.
  eexists. split; [exact E|].
  destruct (addLoggingLevel_preserves _ _ _ _ _ E) as (Ha & _ & Hl & _).
  split; [apply Ha; reflexivity | rewrite Hl; reflexivity].
Defined.

Lemma addLoggingLevel_bindings_witness :
  exists w',
    addLoggingLevel "trace" 5 None (fresh_process a_day true true) = (Returns tt, w')
    /\ logging_attrs w' !! "trace" = Some (ALogToRoot 5)
    /\ logger_class_attrs w' !! "trace" = Some (ALogForLevel 5).
Proof.
  pose proof (fresh_process_registers "trace" 5 a_day true eq_refl) as E.
  eexists. split; [exact E|].
  destruct (addLoggingLevel_bindings _ _ _ _ _ E) as (Hc & _ & _ & Hsame).
  split; [apply Hsame; reflexivity | exact Hc].
Defined.

Lemma addLoggingLevel_level_tables_witness :
  exists w',
    addLoggingLevel "TRACE" 10 None (fresh_process a_day true true) = (Returns tt, w')
    /\ levelToName w' !! 10 = Some "TRACE"
    /\ nameToLevel w' !! "DEBUG" = Some 10.
Proof.
  pose proof (fresh_process_registers "TRACE" 10 a_day true eq_refl) as E.
  eexists. split; [exact E|].
  destruct (addLoggingLevel_level_tables _ _ _ _ _ E) as (Hr & _ & _ & Hn).
  split; [exact Hr | rewrite Hn by discriminate; reflexivity].
Defined.

Lemma logging_setup_returns_iff_witness :
  exists w',
    logging_setup 20 true true "" (fresh_process a_day true true) = (Returns tt, w').
Proof.
  apply (proj1 (logging_setup_returns_iff 20 true true "" (fresh_process a_day true true))).
  split; [reflexivity|].
  split; apply fresh_process_free; vm_compute; reflexivity.
Defined.

Lemma logging_setup_twice_file_handler_witness :
  exists w1 w2,
    logging_setup 20 true false "" (fresh_process a_day true false) = (Returns tt, w1)
    /\ logging_setup 20 true true "" w1
       = (Raises (AttributeError "SPAM already defined in logging module"), w2)
    /\ files w2 = {[ "20261103.log" ]} ∪ ∅.
Proof.
  pose proof (fresh_process_setup 20 true false "" a_day false) as E.
  destruct (logging_setup_twice_file_handler _ _ _ _ _ _ 20 true "" E eq_refl)
    as (w2 & E2 & _ & Hf & _).
  eexists. exists w2. split; [exact E|]. split; [exact E2 | exact Hf].
Defined.

Lemma logging_setup_half_registered_witness :
  exists msg w',
    logging_setup 20 true false ""
      (set_logging_attrs (insert "success" AObject) (fresh_process a_day true true))
    = (Raises (AttributeError msg), w')
    /\ logging_attrs w' !! "SPAM" = Some (AInt 5).
Proof.
  destruct (logging_setup_half_registered 20 true false ""
              (set_logging_attrs (insert "success" AObject)
                 (fresh_process a_day true true)))
    as (msg & w' & E & Hs & _).
  - discriminate.
  - apply (proj1 (bool_decide_eq_false _)). vm_compute. reflexivity.
  - apply (proj1 (bool_decide_eq_true _)). vm_compute. reflexivity.
  - exists msg, w'. split; [exact E | exact Hs].
Defined.

Lemma logging_setup_registers_witness :
  exists w',
    logging_setup 20 true false "" (fresh_process a_day true true) = (Returns tt, w')
    /\ levelToName w' !! 5 = Some "SPAM"
    /\ levelToName w' !! 10 = Some "DEBUG".
Proof.
  pose proof (fresh_process_setup 20 true false "" a_day true) as E.
  eexists. split; [exact E|].
  destruct (logging_setup_registers _ _ _ _ _ _ E) as ((H5 & _) & _ & Hr & _).
  split; [exact H5 | rewrite Hr by discriminate; reflexivity].
Defined.

Lemma logging_setup_sinks_witness :
  exists w',
    logging_setup 10 true false "" (fresh_process a_day true false) = (Returns tt, w')
    /\ root_handlers w'
       = [ {| h_class := StandardErrorHandler; h_level := 10;
              h_formatter := Some (PlainFormatter log_format) |} ].
Proof.
  pose proof (fresh_process_setup 10 true false "" a_day false) as E.
  eexists. split; [exact E|].
  exact (logging_setup_sinks _ _ _ _ _ _ E eq_refl).
Defined.

Lemma log_after_setup_witness :
  exists w',
    logging_setup 20 true false "" (fresh_process a_day true false) = (Returns tt, w')
    /\ logForLevel false 0 5 "quiet" w' = (Returns [], w')
    /\ logForLevel false 0 35 "done" w'
       = (Returns (map (deliver 35 "done") (root_handlers w')), w').
Proof.
  pose proof (fresh_process_setup 20 true false "" a_day false) as E.
  eexists. split; [exact E|].
  split.
  - exact (proj1 (log_after_setup 0 _ _ _ _ _ _ 5 "quiet" E eq_refl)).
  - destruct (log_after_setup 0 _ _ _ _ _ _ 35 "done" E eq_refl) as (H1 & H2 & _).
    rewrite H2 in H1 by lia. exact H1.
Defined.

Lemma log_without_handlers_witness :
  logForLevel false 0 35 "early" (fresh_process a_day true false)
  = (Returns [ deliver 35 "early"
                 {| h_class := StreamHandler stderr; h_level := 30;
                    h_formatter := None |} ],
     fresh_process a_day true false).
Proof.
  exact (proj2 (log_without_handlers 0 (fresh_process a_day true false) 35 "early"
                  eq_refl)).
Defined.

Lemma process_args_idempotent_witness :
  LoggingArgs.process_args 4300
    {| LoggingArgs.log_level := VInt 10; LoggingArgs.logToFile := true |}
  = Returns {| LoggingArgs.log_level := VInt 10; LoggingArgs.logToFile := true |}.
Proof.
  apply (process_args_idempotent 4300
           {| LoggingArgs.log_level := VStr "debug"; LoggingArgs.logToFile := true |}).
  reflexivity.
Defined.

Lemma main_refused_level_witness :
  main 4300 false 0 (Some "verbose") true (fresh_process a_day true false)
  = (Raises (SystemExit "ERROR: 'verbose' is not a valid log level string."),
     fresh_process a_day true false).
Proof.
  apply (main_refused_level 4300 0 false (Some "verbose") true). reflexivity.
Defined.

Lemma main_run_witness :
  exists es w',
    main 4300 false 0 (Some "info") false (fresh_process a_day true false)
    = (Returns es, w')
    /\ map (fun e => (e_levelno e, e_msg e)) es
       = [ (35, "Logging setup completed"); (20, "INFO logging enabled") ]
    /\ root_level w' = 20.
Proof.
  pose proof (fresh_process_setup 20 true false "" a_day false) as E.
  destruct (main_run 4300 0 (Some "info") false 20 _ _ eq_refl E eq_refl (Z.le_refl 0))
    as [Hm Hl].
  eexists. eexists. split; [exact Hm|]. split; [|exact Hl].
  rewrite (configured_sinks 20 false (fresh_process a_day true false) eq_refl).
  reflexivity.
Defined.
